(** * Quartr retrieval front end: job submission and progress tracking

    A shallow embedding of [quartr_streamlit.py] and the properties of its
    job builder, progress poll, startup configuration check and queue
    health probe.

    Conventions of the embedding.
    - Python [str] values are [string]s; a character is a code point
      below 256.
    - Python integers are [Z]; the true division [processed / total] is
      the exact rational quotient in [Q] (the rounding of the quotient to
      a double is not represented).
    - A Python dict is a [gmap] with string keys.  [st.session_state] is
      such a map.
    - A raised exception is represented by its class, as far as a handler
      of the program tells classes apart, and by its message [str(e)].
    - What the script shows on the page is the list of rendering calls it
      completes, in program order. *)

From Stdlib Require Import ZArith QArith String Ascii List Sorted Lia DecimalString.
From stdpp Require Import gmap strings.
Import ListNotations.

Local Open Scope list_scope.
Local Open Scope string_scope.

(** ** Python values and strings *)

(** The scalar values a status snapshot or a probe response holds. *)
Inductive pyval :=
| PNone
| PInt (z : Z)
| PStr (s : string).

#[global] Instance pyval_eq_dec : EqDecision pyval.
Proof. solve_decision. Defined.

(** [str(z)] for an integer. *)
Definition str_of_Z (z : Z) : string := NilZero.string_of_int (Z.to_int z).

(** [str(v)], which is also how an f-string formats [v]. *)
Definition py_str (v : pyval) : string :=
  match v with
  | PNone => "None"
  | PInt z => str_of_Z z
  | PStr s => s
  end.

(** [v == s] for a string literal [s]. *)
Definition py_eq_str (v : pyval) (s : string) : bool :=
  match v with
  | PStr t => String.eqb t s
  | _ => false
  end.

(** [type(v).__name__], as it appears in the text of a [TypeError]. *)
Definition py_type_name (v : pyval) : string :=
  match v with
  | PNone => "NoneType"
  | PInt _ => "int"
  | PStr _ => "str"
  end.

(** [c.isspace()] for a code point below 256. *)
Definition is_space (c : ascii) : bool :=
  let n := nat_of_ascii c in
  ((9 <=? n) && (n <=? 13) || (28 <=? n) && (n <=? 32)
   || (n =? 133) || (n =? 160))%nat.

(** [s.lstrip()]. *)
Fixpoint lstrip (s : string) : string :=
  match s with
  | EmptyString => EmptyString
  | String c r => if is_space c then lstrip r else s
  end.

(** [s.rstrip()]. *)
Fixpoint rstrip (s : string) : string :=
  match s with
  | EmptyString => EmptyString
  | String c r =>
      match rstrip r with
      | EmptyString => if is_space c then EmptyString else String c EmptyString
      | r' => String c r'
      end
  end.

(** [s.strip()]. *)
Definition strip (s : string) : string := rstrip (lstrip s).

(** [s.split(sep)] at the line feed: never empty, the empty string
    splits into one empty piece. *)
Fixpoint split_lines (s : string) : list string :=
  match s with
  | EmptyString => [EmptyString]
  | String c r =>
      if Ascii.eqb c "010"%char then EmptyString :: split_lines r
      else match split_lines r with
           | h :: t => String c h :: t
           | [] => [String c EmptyString]
           end
  end.

(** Truth value of a string: [bool(s)]. *)
Definition str_truthy (s : string) : bool :=
  match s with EmptyString => false | _ => true end.

(** The lines of [l] joined by line feeds. *)
Fixpoint join_lines (l : list string) : string :=
  match l with
  | [] => EmptyString
  | [x] => x
  | x :: r => x ++ String "010"%char (join_lines r)
  end.

(** ** Dates *)

(** A [datetime.date]; dates compare by year, then month, then day. *)
Record date := mkDate { year : Z; month : Z; day : Z }.

(** [a > b] on dates. *)
Definition date_gt (a b : date) : bool :=
  ((year b <? year a)
   || ((year a =? year b)
       && ((month b <? month a)
           || ((month a =? month b) && (day b <? day a)))))%Z.

(** A non-negative number in decimal, padded with zeros to [w] digits. *)
Definition zero_pad (w : nat) (z : Z) : string :=
  let d := str_of_Z z in
  String.concat EmptyString (repeat "0" (w - String.length d)) ++ d.

(** [d.strftime("%Y-%m-%d")] for a year of at most four digits. *)
Definition strftime_ymd (d : date) : string :=
  zero_pad 4 (year d) ++ "-" ++ zero_pad 2 (month d) ++ "-" ++ zero_pad 2 (day d).

(** ** The job builder: the checks of [main] on a submitted form *)

(** What the form widgets return when the form is submitted. *)
Record form_input := mkForm {
  isin_input : string;
  start_date : date;
  end_date : date;
  doc_types : list string;
  s3_bucket : string
}.

(** The arguments [main] hands to [process_files_task]. *)
Record job_request := mkJob {
  job_isins : list string;
  job_start : string;
  job_end : string;
  job_doc_types : list string;
  job_bucket : string
}.

(** [[isin.strip() for isin in isin_input.split("\n") if isin.strip()]]. *)
Definition isin_list_of (raw : string) : list string :=
  map strip (List.filter (fun isin => str_truthy (strip isin)) (split_lines raw)).

Definition msg_required_fields : string := "Please fill in all required fields".
Definition msg_date_order : string := "Start date must be before end date".
Definition msg_no_isin : string := "Please enter at least one valid ISIN".

(** The three guards of the submitted branch of [main], in program order.
    [inl msg] is the [st.error(msg); return] of a failed guard, [inr job]
    the request that reaches [process_files_task]. *)
Definition build_job (f : form_input) : string + job_request :=
  if negb (str_truthy (isin_input f)) || negb (str_truthy (s3_bucket f))
     || match doc_types f with [] => true | _ => false end
  then inl msg_required_fields
  else if date_gt (start_date f) (end_date f)
  then inl msg_date_order
  else
    let isin_list := isin_list_of (isin_input f) in
    match isin_list with
    | [] => inl msg_no_isin
    | _ =>
        inr (mkJob isin_list (strftime_ymd (start_date f))
               (strftime_ymd (end_date f)) (doc_types f) (s3_bucket f))
    end.

(** ** Exceptions, session state and rendering *)

(** The exception classes the handlers of the program tell apart; any
    other [Exception] is a [PyException].  The argument is [str(e)]. *)
Inductive pyexn :=
| TaskException (msg : string)
| TimeoutError (msg : string)
| PyException (msg : string).

Definition exn_str (e : pyexn) : string :=
  match e with
  | TaskException m | TimeoutError m | PyException m => m
  end.

(** The result of a call that may raise. *)
Inductive outcome (A : Type) :=
| Returned (a : A)
| Raised (e : pyexn).
Arguments Returned {A} a.
Arguments Raised {A} e.

(** The values kept in [st.session_state]: the task handle, the
    placeholders made by [st.empty()], and the two entries the script
    initialises at start. *)
Inductive sval :=
| STaskId (id : string)
| SContainer
| SBool (b : bool)
| SFiles (l : list string).

(** The calls by which a run acts on the page and on the queue. *)
Inductive effect :=
| UiTitle (s : string)
| UiWrite (s : string)
| UiProgress (q : Q)
| UiStatusText (s : string)
| UiResultsText (s : string)
| UiError (s : string)
| UiSuccess (s : string)
| UiForm (default_bucket : string)
| Enqueue (j : job_request)
| Rerun
| SetPageConfig
| AutoRefresh (interval : Z).

(** A piece of the script: it reads and updates the session state, acts
    on the page, and returns or raises. *)
Definition script (A : Type) : Type :=
  gmap string sval -> gmap string sval * list effect * outcome A.

Definition ret {A} (a : A) : script A := fun s => (s, [], Returned a).

Definition bind {A B} (m : script A) (k : A -> script B) : script B :=
  fun s =>
    match m s with
    | (s1, out1, Returned a) =>
        let '(s2, out2, r) := k a s1 in (s2, (out1 ++ out2)%list, r)
    | (s1, out1, Raised e) => (s1, out1, Raised e)
    end.

Notation "'let!' x ':=' m 'in' k" := (bind m (fun x => k))
  (at level 10, x name, m at level 100, k at level 200, only parsing).
Notation "m ';;' k" := (bind m (fun _ => k))
  (at level 100, k at level 200, right associativity, only parsing).

Definition raise {A} (e : pyexn) : script A := fun s => (s, [], Raised e).

Definition lift {A} (o : outcome A) : script A := fun s => (s, [], o).

Definition emit (e : effect) : script unit := fun s => (s, [e], Returned tt).

(** [try: body except Exception as e: handler(e)]. *)
Definition try_except {A} (body : script A) (handler : pyexn -> script A)
  : script A :=
  fun s =>
    match body s with
    | (s1, out1, Raised e) =>
        let '(s2, out2, r) := handler e s1 in (s2, (out1 ++ out2)%list, r)
    | r => r
    end.

(** [k in st.session_state]. *)
Definition in_session (k : string) : script bool :=
  fun s => (s, [], Returned (bool_decide (is_Some (s !! k)))).

(** The session state after
    [if k not in st.session_state: st.session_state[k] = v]. *)
Definition add_default (k : string) (v : sval) (s : gmap string sval)
  : gmap string sval :=
  match s !! k with
  | Some _ => s
  | None => <[k:=v]> s
  end.

Definition init_session (k : string) (v : sval) : script unit :=
  fun s => (add_default k v s, [], Returned tt).

(** [st.session_state[k] = v]. *)
Definition set_session (k : string) (v : sval) : script unit :=
  fun s => (<[k:=v]> s, [], Returned tt).

(** [del st.session_state[k]]; every use is under a test that [k] is
    present. *)
Definition del_session (k : string) : script unit :=
  fun s => (delete k s, [], Returned tt).

(** [result.get(k, default)]. *)
Definition dict_get (d : gmap string pyval) (k : string) (default : pyval)
  : pyval :=
  match d !! k with
  | Some v => v
  | None => default
  end.

(** Truth value of a dict: false exactly when it is empty. *)
Definition dict_truthy (d : gmap string pyval) : bool :=
  negb (bool_decide (d = ∅)).

(** [v > 0]. *)
Definition py_gt_zero (v : pyval) : outcome bool :=
  match v with
  | PInt z => Returned (0 <? z)%Z
  | _ =>
      Raised (PyException
                ("'>' not supported between instances of '"
                 ++ py_type_name v ++ "' and 'int'"))
  end.

(** [a / b]. *)
Definition py_truediv (a b : pyval) : outcome Q :=
  match a, b with
  | PInt x, PInt y =>
      if (y =? 0)%Z then Raised (PyException "division by zero")
      else Returned (inject_Z x / inject_Z y)%Q
  | _, _ =>
      Raised (PyException
                ("unsupported operand type(s) for /: '"
                 ++ py_type_name a ++ "' and '" ++ py_type_name b ++ "'"))
  end.

Definition nl : string := String "010"%char EmptyString.

(** ** The progress poll: [check_task_status] *)

Section Poll.

(** The progress widget of the page library raises for a value outside
    the range it accepts; [progress_rejects q] is the exception it raises
    for [q], if any. *)
Variable progress_rejects : Q -> option pyexn.

(** [container.progress(q)]. *)
Definition st_progress (q : Q) : script unit :=
  match progress_rejects q with
  | Some e => raise e
  | None => emit (UiProgress q)
  end.

(** The branch for [status == 'In Progress']. *)
Definition render_in_progress (result : gmap string pyval) : script unit :=
  let total := dict_get result "total" (PInt 0) in
  let processed := dict_get result "processed" (PInt 0) in
  let! positive := lift (py_gt_zero total) in
  let! progress :=
    lift (if positive then py_truediv processed total else Returned 0%Q) in
  st_progress progress;;
  emit (UiStatusText
          ("Processing files: " ++ py_str processed ++ "/" ++ py_str total));;
  let success := dict_get result "success" (PInt 0) in
  let failed := dict_get result "failed" (PInt 0) in
  emit (UiResultsText
          ("Successful uploads: " ++ py_str success ++ nl
           ++ "Failed uploads: " ++ py_str failed)).

(** The branch for [status == 'Complete']. *)
Definition render_complete (result : gmap string pyval) : script unit :=
  st_progress 1%Q;;
  emit (UiStatusText "Processing complete!");;
  emit (UiResultsText
          ("Final results:" ++ nl
           ++ "Total files processed: "
           ++ py_str (dict_get result "total" (PInt 0)) ++ nl
           ++ "Successful uploads: "
           ++ py_str (dict_get result "success" (PInt 0)) ++ nl
           ++ "Failed uploads: "
           ++ py_str (dict_get result "failed" (PInt 0))));;
  del_session "task_id".

(** The branch for [status == 'Failed']. *)
Definition render_failed (result : gmap string pyval) : script unit :=
  emit (UiError
          ("Processing failed: "
           ++ py_str (dict_get result "error" (PStr "Unknown error"))));;
  del_session "task_id".

(** The [if result:] block. [result.get('status')] is [None] when the
    key is missing. *)
Definition render_result (result : gmap string pyval) : script unit :=
  let status := dict_get result "status" PNone in
  if py_eq_str status "In Progress" then render_in_progress result
  else if py_eq_str status "Complete" then render_complete result
  else if py_eq_str status "Failed" then render_failed result
  else ret tt.

(** The handler [except Exception as e] of the poll. *)
Definition on_error (e : pyexn) : script unit :=
  emit (UiError ("Error checking task status: " ++ exn_str e));;
  let! held := in_session "task_id" in
  if held then del_session "task_id" else ret tt.

(** One poll.  [read] is what [huey.result(task_id)] does at this tick:
    it raises, or returns [None] or a dict. *)
Definition check_task_status (read : outcome (option (gmap string pyval)))
  : script unit :=
  let! held := in_session "task_id" in
  if held then
    try_except
      (init_session "progress_container" SContainer;;
       init_session "status_container" SContainer;;
       init_session "results_container" SContainer;;
       let! result := lift read in
       match result with
       | Some result =>
           if dict_truthy result then render_result result else ret tt
       | None => ret tt
       end)
      on_error
  else ret tt.

(** Successive polls of one session, one store answer per tick; the
    result is the final session state and what each tick rendered. *)
Fixpoint poll_ticks (reads : list (outcome (option (gmap string pyval))))
  (s : gmap string sval) : gmap string sval * list (list effect) :=
  match reads with
  | [] => (s, [])
  | read :: rest =>
      let '(s1, out, _) := check_task_status read s in
      let '(s2, outs) := poll_ticks rest s1 in
      (s2, out :: outs)
  end.

End Poll.

(** ** The queue health probe: [test_queue_connection] *)

Definition msg_probe_ok : string := "Queue connection successful!".
Definition msg_probe_timeout : string :=
  "Queue connection timed out. Worker might be unavailable.".

(** [ping] is what importing and calling [ping()] does, [get] what
    [task.get(blocking=True, timeout=15)] does.  The inner handlers take
    a [TaskException] and a [TimeoutError] of [get]; the outer handler
    takes every other exception, and every exception of [ping]. *)
Definition test_queue_connection (ping : outcome unit) (get : outcome pyval)
  : bool * string :=
  match ping with
  | Raised e => (false, "Queue connection failed: " ++ exn_str e)
  | Returned _ =>
      match get with
      | Returned response =>
          if py_eq_str response "pong" then (true, msg_probe_ok)
          else (false, "Unexpected response from queue: " ++ py_str response)
      | Raised (TaskException m) => (false, "Task execution failed: " ++ m)
      | Raised (TimeoutError _) => (false, msg_probe_timeout)
      | Raised (PyException m) => (false, "Queue connection failed: " ++ m)
      end
  end.

(** ** Configuration read at start *)

(** [os.getenv(key)]: [None] when the variable is not set. *)
Definition get_env_variable (env : gmap string string) (key : string)
  : option string := env !! key.

(** The module constants read from the environment. *)
Record config := mkConfig {
  QUARTR_API_KEY : option string;
  AWS_ACCESS_KEY_ID : option string;
  AWS_SECRET_ACCESS_KEY : option string;
  AWS_DEFAULT_REGION : option string;
  DEFAULT_S3_BUCKET : option string;
  REDIS_URL : option string
}.

Definition load_config (env : gmap string string) : config :=
  {| QUARTR_API_KEY := get_env_variable env "QUARTR_API_KEY";
     AWS_ACCESS_KEY_ID := get_env_variable env "AWS_ACCESS_KEY_ID";
     AWS_SECRET_ACCESS_KEY := get_env_variable env "AWS_SECRET_ACCESS_KEY";
     AWS_DEFAULT_REGION := get_env_variable env "AWS_DEFAULT_REGION";
     DEFAULT_S3_BUCKET := get_env_variable env "DEFAULT_S3_BUCKET";
     REDIS_URL := get_env_variable env "REDIS_URL" |}.

(** Truth value of an optional string: [None] and the empty string are
    false. *)
Definition opt_truthy (v : option string) : bool :=
  match v with
  | Some s => str_truthy s
  | None => false
  end.

(** [all(l)]. *)
Definition py_all (l : list (option string)) : bool := forallb opt_truthy l.

(** The list [main] passes to [all]. *)
Definition checked_values (cfg : config) : list (option string) :=
  [QUARTR_API_KEY cfg; AWS_ACCESS_KEY_ID cfg; AWS_SECRET_ACCESS_KEY cfg;
   AWS_DEFAULT_REGION cfg; REDIS_URL cfg].

(** [v or default]. *)
Definition py_or (v : option string) (default : string) : string :=
  match v with
  | Some s => if str_truthy s then s else default
  | None => default
  end.

Definition spaces12 : string := "            ".

Definition msg_missing_env : string :=
  nl ++ spaces12
  ++ "Missing required environment variables. Please ensure all required environment variables are set."
  ++ nl ++ spaces12.

(** ** The script *)

(** What the outside does during one run of the script. *)
Record run_input := mkRun {
  environ : gmap string string;
  health_query : option string;
  store_read : outcome (option (gmap string pyval));
  form_submitted : option form_input;
  process_files_task : job_request -> outcome string;
  probe_clicked : option (outcome unit * outcome pyval)
}.

(** The session entries set before [main]. *)
Definition init_session_state : script unit :=
  init_session "processing_complete" (SBool false);;
  init_session "processed_files" (SFiles []).

Definition health_check : string := "OK".

(** [init_routes()]; the result tells whether [st.stop()] ended the
    run. *)
Definition init_routes (i : run_input) : script bool :=
  if bool_decide (health_query i = Some "check")
  then emit (UiWrite health_check);; ret true
  else ret false.

Section Main.

Variable progress_rejects : Q -> option pyexn.

(** The form and the submitted branch; the result tells whether the run
    goes on to the probe button. *)
Definition show_form (cfg : config) (i : run_input) : script bool :=
  emit (UiForm (py_or (DEFAULT_S3_BUCKET cfg) EmptyString));;
  match form_submitted i with
  | None => ret true
  | Some f =>
      match build_job f with
      | inl msg => emit (UiError msg);; ret false
      | inr job =>
          emit (Enqueue job);;
          match process_files_task i job with
          | Returned id =>
              set_session "task_id" (STaskId id);;
              emit Rerun;;
              ret false
          | Raised e =>
              emit (UiError ("An error occurred: " ++ exn_str e));;
              ret false
          end
      end
  end.

(** [main()]. *)
Definition main (i : run_input) : script unit :=
  let cfg := load_config (environ i) in
  let! stopped := init_routes i in
  if stopped then ret tt
  else
    emit (UiTitle "Quartr Data Retrieval and S3 Upload");;
    if negb (py_all (checked_values cfg)) then emit (UiError msg_missing_env)
    else
      check_task_status progress_rejects (store_read i);;
      let! held := in_session "task_id" in
      let! go_on := (if held then ret true else show_form cfg i) in
      if go_on then
        match probe_clicked i with
        | Some (ping, get) =>
            let '(success, message) := test_queue_connection ping get in
            if success then emit (UiSuccess message)
            else emit (UiError message)
        | None => ret tt
        end
      else ret tt.

End Main.

(** The widget of the page library: a fraction is accepted between 0
    and 1. *)
Definition progress_in_range (q : Q) : option pyexn :=
  if Qle_bool 0 q && Qle_bool q 1 then None
  else Some (PyException "Progress Value has invalid value [0.0, 1.0]").

(** [if "task_id" in st.session_state: st_autorefresh(interval=10000)]. *)
Definition auto_refresh : script unit :=
  let! held := in_session "task_id" in
  if held then emit (AutoRefresh 10000) else ret tt.

(** A whole run, in program order: the page configuration (line 3, a
    call with constant arguments), the initial session entries, the
    auto-refresh registration while a handle is held, then [main]. *)
Definition run_script (w : Q -> option pyexn) (i : run_input) : script unit :=
  emit SetPageConfig;; init_session_state;; auto_refresh;; main w i.

(** ** Notions used in the statements *)

(** The session state once the three placeholders exist. *)
Definition with_containers (s : gmap string sval) : gmap string sval :=
  add_default "results_container" SContainer
    (add_default "status_container" SContainer
       (add_default "progress_container" SContainer s)).

(** The value of [processed / total if total > 0 else 0] on integers. *)
Definition progress_of (processed total : Z) : Q :=
  if (0 <? total)%Z then (inject_Z processed / inject_Z total)%Q else 0%Q.

(** The integer counts of a snapshot whose status is 'In Progress'. *)
Definition in_progress_counts (d : gmap string pyval) : option (Z * Z) :=
  if py_eq_str (dict_get d "status" PNone) "In Progress" then
    match dict_get d "processed" (PInt 0), dict_get d "total" (PInt 0) with
    | PInt p, PInt t => Some (p, t)
    | _, _ => None
    end
  else None.

(** The fraction such a snapshot stands for. *)
Definition snapshot_fraction (d : gmap string pyval) : Q :=
  match in_progress_counts d with
  | Some (p, t) => progress_of p t
  | None => 0%Q
  end.

(** What the 'In Progress' branch puts on the page. *)
Definition in_progress_page (d : gmap string pyval) (q : Q) : list effect :=
  [UiProgress q;
   UiStatusText
     ("Processing files: " ++ py_str (dict_get d "processed" (PInt 0)) ++ "/"
      ++ py_str (dict_get d "total" (PInt 0)));
   UiResultsText
     ("Successful uploads: " ++ py_str (dict_get d "success" (PInt 0)) ++ nl
      ++ "Failed uploads: " ++ py_str (dict_get d "failed" (PInt 0)))].

(** The progress values among the rendering calls of a tick. *)
Fixpoint fractions_of (out : list effect) : list Q :=
  match out with
  | [] => []
  | UiProgress q :: rest => q :: fractions_of rest
  | _ :: rest => fractions_of rest
  end.

(** The progress values rendered over successive ticks, in order. *)
Definition rendered_fractions (outs : list (list effect)) : list Q :=
  concat (map fractions_of outs).

(** A sequence of fractions that never decreases. *)
Definition non_decreasing (l : list Q) : Prop := StronglySorted Qle l.

(** A store read that finds the snapshot [d]. *)
Definition found (d : gmap string pyval)
  : outcome (option (gmap string pyval)) := Returned (Some d).

(** A store read that finds nothing. *)
Definition absent : outcome (option (gmap string pyval)) := Returned None.

(** The statuses [check_task_status] has a branch for. *)
Definition known_statuses : list string := ["In Progress"; "Complete"; "Failed"].

(** The variables whose values [main] checks at start. *)
Definition required_keys : list string :=
  ["QUARTR_API_KEY"; "AWS_ACCESS_KEY_ID"; "AWS_SECRET_ACCESS_KEY";
   "AWS_DEFAULT_REGION"; "REDIS_URL"].

(** The five ways a probe can go, as [test_queue_connection] tells them
    apart. *)
Inductive probe_case :=
| CaseOk
| CaseUnexpected
| CaseExecutionFailed
| CaseTimedOut
| CaseConnectionFailed.

Definition probe_case_of (ping : outcome unit) (get : outcome pyval)
  : probe_case :=
  match ping, get with
  | Raised _, _ => CaseConnectionFailed
  | Returned _, Returned v =>
      if py_eq_str v "pong" then CaseOk else CaseUnexpected
  | Returned _, Raised (TaskException _) => CaseExecutionFailed
  | Returned _, Raised (TimeoutError _) => CaseTimedOut
  | Returned _, Raised (PyException _) => CaseConnectionFailed
  end.

(** The four results of the design document, and how the program words
    each of them. *)
Inductive HealthProbeResult :=
| Ok
| UnexpectedResponse (value : string)
| ExecutionFailed (reason : string)
| TimedOut.

Definition report (r : HealthProbeResult) : bool * string :=
  match r with
  | Ok => (true, msg_probe_ok)
  | UnexpectedResponse v => (false, "Unexpected response from queue: " ++ v)
  | ExecutionFailed m => (false, "Task execution failed: " ++ m)
  | TimedOut => (false, msg_probe_timeout)
  end.

(** ** Sample inputs *)

Definition session_holding (id : string) : gmap string sval :=
  {[ "task_id" := STaskId id ]}.

Definition in_progress_snapshot (processed total : Z) : gmap string pyval :=
  <["status" := PStr "In Progress"]>
    (<["processed" := PInt processed]>
       (<["total" := PInt total]>
          (<["success" := PInt processed]> (<["failed" := PInt 0]> ∅)))).

Definition complete_snapshot : gmap string pyval :=
  <["status" := PStr "Complete"]>
    (<["total" := PInt 10]>
       (<["success" := PInt 9]> (<["failed" := PInt 1]> ∅))).

Definition pending_snapshot : gmap string pyval :=
  {[ "status" := PStr "Pending" ]}.

Definition scenario_form : form_input :=
  mkForm (join_lines ["US0000000001"; EmptyString; "  US0000000002  "])
    (mkDate 2024 1 1) (mkDate 2024 12 31) ["slides"] "bucket-x".

Definition scenario_job : job_request :=
  mkJob ["US0000000001"; "US0000000002"] "2024-01-01" "2024-12-31"
    ["slides"] "bucket-x".

(** An environment with every checked variable set and no default
    bucket. *)
Definition env_without_bucket : gmap string string :=
  <["QUARTR_API_KEY" := "key"]>
    (<["AWS_ACCESS_KEY_ID" := "id"]>
       (<["AWS_SECRET_ACCESS_KEY" := "secret"]>
          (<["AWS_DEFAULT_REGION" := "eu-west-1"]>
             (<["REDIS_URL" := "redis://localhost:6379"]> ∅)))).

(** A run in which the operator submits the scenario form and the queue
    accepts the job. *)
Definition submit_run (env : gmap string string) : run_input :=
  mkRun env None absent (Some scenario_form)
    (fun _ => Returned "task-1") None.

(** Forms that each break one rule of the builder, and one that breaks
    two. *)
Definition form_no_destination : form_input :=
  mkForm "US0000000001" (mkDate 2024 1 1) (mkDate 2024 12 31) ["slides"]
    EmptyString.

Definition form_no_kinds : form_input :=
  mkForm "US0000000001" (mkDate 2024 1 1) (mkDate 2024 12 31) [] "bucket-x".

Definition form_no_text_reversed_dates : form_input :=
  mkForm EmptyString (mkDate 2024 12 31) (mkDate 2024 1 1) ["slides"]
    "bucket-x".

(** An environment with the default bucket and no queue address. *)
Definition env_without_redis : gmap string string :=
  <["DEFAULT_S3_BUCKET" := "bucket-x"]> (delete "REDIS_URL" env_without_bucket).

(** A line with no white space at either end. *)
Definition stripped (x : string) : Prop := strip x = x.

(** ** Further notions and sample inputs *)

(** What the 'Complete' branch puts on the page. *)
Definition complete_page (d : gmap string pyval) : list effect :=
  [UiProgress 1%Q;
   UiStatusText "Processing complete!";
   UiResultsText
     ("Final results:" ++ nl
      ++ "Total files processed: "
      ++ py_str (dict_get d "total" (PInt 0)) ++ nl
      ++ "Successful uploads: "
      ++ py_str (dict_get d "success" (PInt 0)) ++ nl
      ++ "Failed uploads: "
      ++ py_str (dict_get d "failed" (PInt 0)))].

(** The calls that belong to submitting a job: showing the form,
    enqueuing, and the rerun after a successful enqueue. *)
Definition is_submission (e : effect) : bool :=
  match e with
  | UiForm _ | Enqueue _ | Rerun => true
  | _ => false
  end.

(** The rendered error messages among the calls of a run. *)
Fixpoint errors_of (out : list effect) : list string :=
  match out with
  | [] => []
  | UiError m :: rest => m :: errors_of rest
  | _ :: rest => errors_of rest
  end.

(** A text made of white space only. *)
Fixpoint all_space (s : string) : bool :=
  match s with
  | EmptyString => true
  | String c r => is_space c && all_space r
  end.

(** A text with no line feed in it. *)
Fixpoint newline_free (s : string) : bool :=
  match s with
  | EmptyString => true
  | String c r => negb (Ascii.eqb c "010"%char) && newline_free r
  end.

(** A line that is an identifier as it stands: not empty, no white space
    at either end, no line feed inside. *)
Definition clean_line (x : string) : Prop :=
  x <> EmptyString /\ stripped x /\ newline_free x = true.

Definition failed_snapshot : gmap string pyval :=
  <["status" := PStr "Failed"]> (<["error" := PStr "quota exceeded"]> ∅).

(** An environment with every checked variable set. *)
Definition env_complete : gmap string string :=
  <["DEFAULT_S3_BUCKET" := "bucket-x"]> env_without_bucket.

(** A run in which nothing is submitted or clicked and the store answers
    [read]. *)
Definition poll_run (read : outcome (option (gmap string pyval)))
  : run_input :=
  mkRun env_complete None read None (fun _ => Returned "task-1") None.

(** A run in which the operator submits [f], the queue answers [queue],
    and the probe button is clicked as well. *)
Definition form_run (f : form_input) (queue : outcome string) : run_input :=
  mkRun env_complete None absent (Some f) (fun _ => queue)
    (Some (Returned tt, Returned (PStr "pong"))).

(** The form with its two dates exchanged. *)
Definition swap_dates (f : form_input) : form_input :=
  mkForm (isin_input f) (end_date f) (start_date f) (doc_types f)
    (s3_bucket f).

(** What the probe button adds to the page in a run that reaches it. *)
Definition probe_effects (i : run_input) : list effect :=
  match probe_clicked i with
  | Some (ping, get) =>
      let '(success, message) := test_queue_connection ping get in
      [if success then UiSuccess message else UiError message]
  | None => []
  end.

(** The destination the form proposes. *)
Definition form_default (i : run_input) : string :=
  py_or (get_env_variable (environ i) "DEFAULT_S3_BUCKET") EmptyString.

Definition page_title : effect := UiTitle "Quartr Data Retrieval and S3 Upload".

(** Closes the equivalences on [build_job] once its guards are decided. *)
Ltac settle_guard :=
  unfold msg_required_fields, msg_date_order, msg_no_isin in *;
  repeat split; intros;
  repeat match goal with
         | H : exists _, _ |- _ => destruct H
         | H : _ /\ _ |- _ => destruct H
         end;
  try tauto; try congruence; eauto.

(** ** Running the script monad *)

Lemma bind_pure {A B} (m : script A) (k : A -> script B) s s1 a :
  m s = (s1, [], Returned a) -> bind m k s = k a s1.
Proof. unfold bind. intros ->. by destruct (k a s1) as [[? ?] ?]. Qed.

Lemma bind_emit {B} (e : effect) (k : unit -> script B) s :
  bind (emit e) k s = let '(s2, out, r) := k tt s in (s2, e :: out, r).
Proof. reflexivity. Qed.

Lemma bind_raised {A B} (m : script A) (k : A -> script B) s s1 out e :
  m s = (s1, out, Raised e) -> bind m k s = (s1, out, Raised e).
Proof. unfold bind. by intros ->. Qed.

Lemma try_except_returned {A} (body : script A) h s s1 out a :
  body s = (s1, out, Returned a) ->
  try_except body h s = (s1, out, Returned a).
Proof. unfold try_except. by intros ->. Qed.

Lemma try_except_raised {A} (body : script A) h s s1 e :
  body s = (s1, [], Raised e) -> try_except body h s = h e s1.
Proof. unfold try_except. intros ->. by destruct (h e s1) as [[? ?] ?]. Qed.

(** ** The session state under the poll *)

Lemma add_default_lookup_present k v (s : gmap string sval) j x :
  s !! j = Some x -> add_default k v s !! j = Some x.
Proof.
  intros H. unfold add_default. destruct (s !! k) eqn:E; [done|].
  destruct (decide (k = j)) as [->|Hne]; [congruence|].
  by rewrite lookup_insert_ne.
Qed.

Lemma add_default_present k v (s : gmap string sval) :
  is_Some (s !! k) -> add_default k v s = s.
Proof. intros [x Hx]. unfold add_default. by rewrite Hx. Qed.

Lemma with_containers_lookup_present (s : gmap string sval) j x :
  s !! j = Some x -> with_containers s !! j = Some x.
Proof.
  intros H. unfold with_containers. by do 3 apply add_default_lookup_present.
Qed.

Lemma with_containers_present (s : gmap string sval) :
  is_Some (s !! "progress_container") ->
  is_Some (s !! "status_container") ->
  is_Some (s !! "results_container") ->
  with_containers s = s.
Proof.
  intros H1 H2 H3. unfold with_containers.
  by rewrite (add_default_present "progress_container"),
    (add_default_present "status_container"),
    (add_default_present "results_container").
Qed.

Lemma on_error_held e (s : gmap string sval) id :
  s !! "task_id" = Some id ->
  on_error e s
  = (delete "task_id" s,
     [UiError ("Error checking task status: " ++ exn_str e)], Returned tt).
Proof.
  intros H. unfold on_error. rewrite bind_emit.
  erewrite bind_pure; last reflexivity.
  rewrite bool_decide_eq_true_2 by (rewrite H; eauto). reflexivity.
Qed.

(** With no handle in the session the poll does nothing. *)
Lemma check_task_status_idle w read (s : gmap string sval) :
  s !! "task_id" = None -> check_task_status w read s = (s, [], Returned tt).
Proof.
  intros H. unfold check_task_status. erewrite bind_pure; last reflexivity.
  rewrite bool_decide_eq_false_2; [reflexivity|]. rewrite H. by intros [? ?].
Qed.

(** With a handle held, the poll by what the store read does. *)
Lemma check_task_status_held w read (s : gmap string sval) id :
  s !! "task_id" = Some id ->
  check_task_status w read s =
  match read with
  | Raised e =>
      (delete "task_id" (with_containers s),
       [UiError ("Error checking task status: " ++ exn_str e)], Returned tt)
  | Returned None => (with_containers s, [], Returned tt)
  | Returned (Some d) =>
      if dict_truthy d
      then try_except (render_result w d) on_error (with_containers s)
      else (with_containers s, [], Returned tt)
  end.
Proof.
  intros H. unfold check_task_status. erewrite bind_pure; last reflexivity.
  rewrite bool_decide_eq_true_2 by (rewrite H; eauto).
  pose proof (with_containers_lookup_present s _ _ H) as Hc.
  unfold try_except at 1.
  do 3 (erewrite bind_pure; last reflexivity). fold (with_containers s).
  destruct read as [[d|]|e].
  - erewrite bind_pure; last reflexivity.
    cbv beta iota. destruct (dict_truthy d); reflexivity.
  - reflexivity.
  - erewrite bind_raised; last reflexivity.
    rewrite (on_error_held _ _ _ Hc). reflexivity.
Qed.

Lemma dict_get_status (d : gmap string pyval) st :
  d !! "status" = Some (PStr st) -> dict_get d "status" PNone = PStr st.
Proof. unfold dict_get. by intros ->. Qed.

Lemma status_dict_truthy (d : gmap string pyval) v :
  d !! "status" = Some v -> dict_truthy d = true.
Proof.
  intros H. unfold dict_truthy. rewrite bool_decide_eq_false_2; [done|].
  intros ->. by rewrite lookup_empty in H.
Qed.

Lemma py_eq_str_true v st : py_eq_str v st = true -> v = PStr st.
Proof.
  destruct v; simpl; try discriminate.
  intros H. apply String.eqb_eq in H. by subst.
Qed.

Lemma py_eq_str_status (d : gmap string pyval) st :
  py_eq_str (dict_get d "status" PNone) st = true ->
  d !! "status" = Some (PStr st).
Proof.
  intros H. apply py_eq_str_true in H. unfold dict_get in H.
  destruct (d !! "status"); congruence.
Qed.

(** The 'Complete' branch always ends without the handle. *)
Lemma complete_disposes w d (s : gmap string sval) id :
  s !! "task_id" = Some id ->
  exists out,
    try_except (render_complete w d) on_error s
    = (delete "task_id" s, out, Returned tt).
Proof.
  intros H. unfold render_complete, st_progress.
  destruct (w 1%Q) as [e|].
  - erewrite try_except_raised; last reflexivity.
    rewrite (on_error_held _ _ _ H). eauto.
  - eexists. reflexivity.
Qed.

(** The 'Failed' branch renders the error and drops the handle. *)
Lemma failed_disposes d (s : gmap string sval) :
  try_except (render_failed d) on_error s
  = (delete "task_id" s,
     [UiError ("Processing failed: "
               ++ py_str (dict_get d "error" (PStr "Unknown error")))],
     Returned tt).
Proof. reflexivity. Qed.

Lemma in_progress_counts_inv (d : gmap string pyval) p t :
  in_progress_counts d = Some (p, t) ->
  d !! "status" = Some (PStr "In Progress")
  /\ dict_get d "processed" (PInt 0) = PInt p
  /\ dict_get d "total" (PInt 0) = PInt t.
Proof.
  unfold in_progress_counts.
  destruct (py_eq_str (dict_get d "status" PNone) "In Progress") eqn:E;
    [|discriminate].
  apply py_eq_str_status in E.
  destruct (dict_get d "processed" (PInt 0)); try discriminate.
  destruct (dict_get d "total" (PInt 0)); try discriminate.
  intros [= -> ->]. done.
Qed.

(** The 'In Progress' branch on integer counts: the guard decides
    between the quotient and 0, and only the widget can raise. *)
Lemma render_in_progress_counts w (d : gmap string pyval) p t s :
  dict_get d "processed" (PInt 0) = PInt p ->
  dict_get d "total" (PInt 0) = PInt t ->
  render_in_progress w d s =
  match w (progress_of p t) with
  | None => (s, in_progress_page d (progress_of p t), Returned tt)
  | Some e => (s, [], Raised e)
  end.
Proof.
  intros Hp Ht. unfold render_in_progress, in_progress_page, progress_of.
  rewrite Hp, Ht. cbn [py_gt_zero].
  erewrite bind_pure; last reflexivity.
  destruct (0 <? t)%Z eqn:Hpos.
  - cbn [py_truediv].
    assert ((t =? 0)%Z = false) as -> by lia.
    erewrite bind_pure; last reflexivity.
    unfold st_progress. destruct (w _); reflexivity.
  - erewrite bind_pure; last reflexivity.
    unfold st_progress. destruct (w _); reflexivity.
Qed.

(** One poll of an 'In Progress' snapshot with integer counts. *)
Lemma check_task_status_in_progress w (d : gmap string pyval) p t
  (s : gmap string sval) id :
  s !! "task_id" = Some id ->
  in_progress_counts d = Some (p, t) ->
  check_task_status w (found d) s =
  match w (progress_of p t) with
  | None => (with_containers s, in_progress_page d (progress_of p t), Returned tt)
  | Some e =>
      (delete "task_id" (with_containers s),
       [UiError ("Error checking task status: " ++ exn_str e)], Returned tt)
  end.
Proof.
  intros H Hc. apply in_progress_counts_inv in Hc as (Hst & Hp & Ht).
  unfold found. rewrite (check_task_status_held _ _ _ _ H).
  rewrite (status_dict_truthy _ _ Hst).
  unfold render_result. rewrite (dict_get_status _ _ Hst). cbn [py_eq_str String.eqb].
  change (String.eqb "In Progress" "In Progress") with true. cbv iota.
  pose proof (render_in_progress_counts w d p t (with_containers s) Hp Ht) as Hr.
  destruct (w (progress_of p t)) as [e|].
  - erewrite try_except_raised; last exact Hr.
    apply on_error_held with (id := id).
    by apply with_containers_lookup_present.
  - erewrite try_except_returned; last exact Hr. reflexivity.
Qed.

(** ** The progress poll: properties *)

(** C7.  Whatever exception the store read raises while a handle is held,
    the poll catches it, renders one error message that carries the text
    of the exception, and removes the handle from the session state; the
    poll itself returns normally and nothing is retried. *)
Theorem store_exception_disposes_handle w e (s : gmap string sval) id :
  s !! "task_id" = Some id ->
  check_task_status w (Raised e) s
  = (delete "task_id" (with_containers s),
     [UiError ("Error checking task status: " ++ exn_str e)], Returned tt)
  /\ (check_task_status w (Raised e) s).1.1 !! "task_id" = None.
Proof.
  intros H. rewrite (check_task_status_held _ _ _ _ H). split; [done|].
  apply lookup_delete_eq.
Qed.

Lemma store_exception_disposes_handle_witness :
  check_task_status progress_in_range
    (Raised (PyException "Connection refused")) (session_holding "t1")
  = (delete "task_id" (with_containers (session_holding "t1")),
     [UiError "Error checking task status: Connection refused"], Returned tt)
  /\ (check_task_status progress_in_range
        (Raised (PyException "Connection refused"))
        (session_holding "t1")).1.1 !! "task_id" = None.
Proof.
  apply (store_exception_disposes_handle progress_in_range
           (PyException "Connection refused") (session_holding "t1")
           (STaskId "t1")).
  reflexivity.
Defined.

(** A snapshot in a terminal state leaves the session without the
    handle, whatever the page widgets do. *)
Lemma terminal_poll_state w (d : gmap string pyval) st
  (s : gmap string sval) id :
  s !! "task_id" = Some id ->
  st = "Complete" \/ st = "Failed" ->
  d !! "status" = Some (PStr st) ->
  (check_task_status w (found d) s).1.1 = delete "task_id" (with_containers s).
Proof.
  intros H Hst Hd. unfold found. rewrite (check_task_status_held _ _ _ _ H).
  rewrite (status_dict_truthy _ _ Hd).
  unfold render_result. rewrite (dict_get_status _ _ Hd).
  pose proof (with_containers_lookup_present s _ _ H) as Hc.
  destruct Hst as [-> | ->].
  - change (py_eq_str (PStr "Complete") "In Progress") with false.
    change (py_eq_str (PStr "Complete") "Complete") with true. cbv iota.
    destruct (complete_disposes w d _ _ Hc) as [out ->]. reflexivity.
  - change (py_eq_str (PStr "Failed") "In Progress") with false.
    change (py_eq_str (PStr "Failed") "Complete") with false.
    change (py_eq_str (PStr "Failed") "Failed") with true. cbv iota.
    rewrite failed_disposes. reflexivity.
Qed.

(** C3, as the program has it.  A poll that reads a snapshot whose status
    is 'Complete' or 'Failed' removes the handle from the session state;
    every later poll of that session, whatever the store would answer,
    renders nothing, changes nothing and raises nothing. *)
Theorem terminal_snapshot_disposes_handle w (d : gmap string pyval) st
  (s : gmap string sval) id :
  s !! "task_id" = Some id ->
  st = "Complete" \/ st = "Failed" ->
  d !! "status" = Some (PStr st) ->
  let s' := (check_task_status w (found d) s).1.1 in
  s' !! "task_id" = None
  /\ forall read, check_task_status w read s' = (s', [], Returned tt).
Proof.
  intros H Hst Hd s'.
  assert (s' !! "task_id" = None) as Hnone.
  { subst s'. rewrite (terminal_poll_state w d st s id H Hst Hd).
    apply lookup_delete_eq. }
  split; [exact Hnone|].
  intros read. by apply check_task_status_idle.
Qed.

Lemma terminal_snapshot_disposes_handle_witness :
  let s' := (check_task_status progress_in_range (found complete_snapshot)
               (session_holding "t1")).1.1 in
  s' !! "task_id" = None
  /\ forall read,
      check_task_status progress_in_range read s' = (s', [], Returned tt).
Proof.
  apply (terminal_snapshot_disposes_handle progress_in_range
           complete_snapshot "Complete" (session_holding "t1") (STaskId "t1")).
  - reflexivity.
  - left. reflexivity.
  - reflexivity.
Defined.

(** C3, the claim refuted.  After a 'Complete' snapshot has disposed the
    handle, a further poll is a silent no-op: it renders no error, raises
    nothing and leaves the session as it is. *)
Lemma poll_after_disposal_is_silent :
  let s1 := (check_task_status progress_in_range (found complete_snapshot)
               (session_holding "t1")).1.1 in
  s1 !! "task_id" = None
  /\ check_task_status progress_in_range (found complete_snapshot) s1
     = (s1, [], Returned tt).
Proof.
  intros s1.
  assert (s1 !! "task_id" = None) as H by (vm_compute; reflexivity).
  split; [exact H|]. by apply check_task_status_idle.
Qed.

Lemma poll_ticks_cons w read rest (s s1 : gmap string sval) out r :
  check_task_status w read s = (s1, out, r) ->
  poll_ticks w (read :: rest) s
  = ((poll_ticks w rest s1).1, out :: (poll_ticks w rest s1).2).
Proof.
  intros H. cbn [poll_ticks]. rewrite H.
  by destruct (poll_ticks w rest s1) as [s2 outs].
Qed.

(** C5, as the program has it.  While the store has no snapshot for the
    held handle, every poll renders nothing and keeps the handle, however
    many ticks go by: absence is never turned into an error or a failure,
    and the program has no grace period. *)
Theorem absent_snapshot_never_fails w (n : nat) (s : gmap string sval) id :
  s !! "task_id" = Some id ->
  (poll_ticks w (repeat absent n) s).2 = repeat [] n
  /\ (poll_ticks w (repeat absent n) s).1 !! "task_id" = Some id.
Proof.
  revert s. induction n as [|n IH]; intros s H; [done|].
  cbn [repeat].
  rewrite (poll_ticks_cons w absent _ s (with_containers s) [] (Returned tt))
    by (unfold absent; by rewrite (check_task_status_held _ _ _ _ H)).
  destruct (IH (with_containers s)
              (with_containers_lookup_present s _ _ H)) as [IH1 IH2].
  cbn [fst snd]. rewrite IH1. split; [reflexivity | exact IH2].
Qed.

Lemma absent_snapshot_never_fails_witness :
  (poll_ticks progress_in_range (repeat absent 1000)
     (session_holding "t1")).2 = repeat [] 1000%nat
  /\ (poll_ticks progress_in_range (repeat absent 1000)
        (session_holding "t1")).1 !! "task_id" = Some (STaskId "t1").
Proof.
  apply (absent_snapshot_never_fails progress_in_range 1000
           (session_holding "t1") (STaskId "t1")).
  reflexivity.
Defined.

(** C5, the claim refuted.  A poll that finds no snapshot renders
    nothing at all, so no waiting indication; and a thousand such polls in
    a row still end with the handle held and no failure rendered. *)
Lemma absent_snapshot_renders_nothing :
  (check_task_status progress_in_range absent (session_holding "t1")).1.2 = []
  /\ ~ (exists e,
          In e (concat (poll_ticks progress_in_range (repeat absent 1000)
                          (session_holding "t1")).2)).
Proof.
  split; [reflexivity|].
  intros [e He]. vm_compute in He. exact He.
Qed.

(** C10, as the program has it.  A poll that reads a snapshot whose
    status is none of 'In Progress', 'Complete' and 'Failed' renders
    nothing and raises nothing; the handle and every entry the session
    state already had keep their values.  The one change it can make is to
    add the placeholders that are not there yet; once all three exist the
    session state is left as it was. *)
Theorem unknown_status_keeps_handle w (d : gmap string pyval)
  (s : gmap string sval) id :
  s !! "task_id" = Some id ->
  (forall st, In st known_statuses -> d !! "status" <> Some (PStr st)) ->
  check_task_status w (found d) s = (with_containers s, [], Returned tt)
  /\ with_containers s !! "task_id" = Some id
  /\ (forall k v, s !! k = Some v -> with_containers s !! k = Some v)
  /\ (is_Some (s !! "progress_container") ->
      is_Some (s !! "status_container") ->
      is_Some (s !! "results_container") ->
      with_containers s = s).
Proof.
  intros H Hunknown.
  split; [|split; [|split]].
  - unfold found. rewrite (check_task_status_held _ _ _ _ H).
    destruct (dict_truthy d); [|reflexivity].
    unfold render_result.
    destruct (py_eq_str (dict_get d "status" PNone) "In Progress") eqn:E1.
    { apply py_eq_str_status in E1. exfalso.
      apply (Hunknown "In Progress"); [simpl; tauto | exact E1]. }
    destruct (py_eq_str (dict_get d "status" PNone) "Complete") eqn:E2.
    { apply py_eq_str_status in E2. exfalso.
      apply (Hunknown "Complete"); [simpl; tauto | exact E2]. }
    destruct (py_eq_str (dict_get d "status" PNone) "Failed") eqn:E3.
    { apply py_eq_str_status in E3. exfalso.
      apply (Hunknown "Failed"); [simpl; tauto | exact E3]. }
    reflexivity.
  - by apply with_containers_lookup_present.
  - intros k v. apply with_containers_lookup_present.
  - apply with_containers_present.
Qed.

Lemma unknown_status_keeps_handle_witness :
  check_task_status progress_in_range (found pending_snapshot)
    (session_holding "t1")
  = (with_containers (session_holding "t1"), [], Returned tt)
  /\ with_containers (session_holding "t1") !! "task_id" = Some (STaskId "t1")
  /\ (forall k v, session_holding "t1" !! k = Some v ->
      with_containers (session_holding "t1") !! k = Some v)
  /\ (is_Some (session_holding "t1" !! "progress_container") ->
      is_Some (session_holding "t1" !! "status_container") ->
      is_Some (session_holding "t1" !! "results_container") ->
      with_containers (session_holding "t1") = session_holding "t1").
Proof.
  apply (unknown_status_keeps_handle progress_in_range pending_snapshot
           (session_holding "t1") (STaskId "t1")).
  - reflexivity.
  - intros st Hin. simpl in Hin.
    destruct Hin as [<- | [<- | [<- | []]]]; vm_compute; discriminate.
Defined.

(** C10, the claim refuted.  On the first poll of a session the three
    placeholders are created before the snapshot is read, so a snapshot
    with an unknown status does not leave the session state unchanged. *)
Lemma unknown_status_changes_session :
  let s1 := (check_task_status progress_in_range (found pending_snapshot)
               (session_holding "t1")).1.1 in
  s1 <> session_holding "t1"
  /\ session_holding "t1" !! "progress_container" = None
  /\ s1 !! "progress_container" = Some SContainer.
Proof.
  intros s1.
  assert (s1 !! "progress_container" = Some SContainer) as H1
      by (vm_compute; reflexivity).
  assert (session_holding "t1" !! "progress_container" = None) as H0
      by (vm_compute; reflexivity).
  split; [|split; assumption].
  intros Heq. rewrite Heq in H1. congruence.
Qed.

(** C9.  For a snapshot whose status is 'In Progress' and whose counts
    are integers, every progress value the poll renders is the quotient
    processed / total when total > 0 and is 0 when total = 0 (the guard
    sends every total that is not positive to 0, so the quotient is never
    taken at 0); when the widget accepts that value the poll renders it,
    with the two texts, and returns normally. *)
Theorem progress_fraction_guarded w (d : gmap string pyval) p t
  (s : gmap string sval) id :
  s !! "task_id" = Some id ->
  in_progress_counts d = Some (p, t) ->
  let run := check_task_status w (found d) s in
  (forall q, In q (fractions_of run.1.2) -> q = progress_of p t)
  /\ (w (progress_of p t) = None ->
      run = (with_containers s, in_progress_page d (progress_of p t),
             Returned tt))
  /\ ((0 < t)%Z -> progress_of p t = (inject_Z p / inject_Z t)%Q)
  /\ (t = 0%Z -> progress_of p t = 0%Q).
Proof.
  intros H Hc run. subst run.
  rewrite (check_task_status_in_progress w d p t s id H Hc).
  split; [|split; [|split]].
  - destruct (w (progress_of p t)); cbn; intros q Hq; [tauto|].
    destruct Hq as [<- | []]. reflexivity.
  - by intros ->.
  - intros Ht. unfold progress_of.
    assert ((0 <? t)%Z = true) as -> by lia. reflexivity.
  - intros ->. reflexivity.
Qed.

Lemma progress_fraction_guarded_witness :
  let run := check_task_status progress_in_range
               (found (in_progress_snapshot 5 10)) (session_holding "t1") in
  (forall q, In q (fractions_of run.1.2) -> q = progress_of 5 10)
  /\ (progress_in_range (progress_of 5 10) = None ->
      run = (with_containers (session_holding "t1"),
             in_progress_page (in_progress_snapshot 5 10) (progress_of 5 10),
             Returned tt))
  /\ ((0 < 10)%Z -> progress_of 5 10 = (inject_Z 5 / inject_Z 10)%Q)
  /\ (10%Z = 0%Z -> progress_of 5 10 = 0%Q).
Proof.
  apply (progress_fraction_guarded progress_in_range
           (in_progress_snapshot 5 10) 5 10 (session_holding "t1")
           (STaskId "t1")).
  - reflexivity.
  - reflexivity.
Defined.

Lemma rendered_fractions_cons out outs :
  rendered_fractions (out :: outs)
  = (fractions_of out ++ rendered_fractions outs)%list.
Proof. reflexivity. Qed.

Lemma snapshot_fraction_counts (d : gmap string pyval) p t :
  in_progress_counts d = Some (p, t) -> snapshot_fraction d = progress_of p t.
Proof. unfold snapshot_fraction. by intros ->. Qed.

(** C1, as the program has it.  The poll keeps no last-seen maximum: at
    each tick it renders the fraction of the snapshot it has just read.
    So over any sequence of 'In Progress' snapshots that the widget
    accepts, the rendered fractions are those of the snapshots, tick by
    tick, and they never decrease whenever the fractions of the snapshots
    read never decrease. *)
Theorem rendered_fractions_follow_snapshots w
  (snaps : list (gmap string pyval)) (s : gmap string sval) id :
  s !! "task_id" = Some id ->
  Forall (fun d => exists p t,
              in_progress_counts d = Some (p, t)
              /\ w (progress_of p t) = None) snaps ->
  rendered_fractions (poll_ticks w (map found snaps) s).2
  = map snapshot_fraction snaps
  /\ (non_decreasing (map snapshot_fraction snaps) ->
      non_decreasing (rendered_fractions (poll_ticks w (map found snaps) s).2)).
Proof.
  intros H Hall.
  assert (rendered_fractions (poll_ticks w (map found snaps) s).2
          = map snapshot_fraction snaps) as Heq.
  { revert s H. induction Hall as [|d snaps (p & t & Hc & Hw) _ IH]; intros s H.
    - reflexivity.
    - cbn [map].
      pose proof (check_task_status_in_progress w d p t s id H Hc) as Hrun.
      rewrite Hw in Hrun.
      rewrite (poll_ticks_cons w (found d) _ s _ _ _ Hrun).
      cbn [snd]. rewrite rendered_fractions_cons.
      rewrite (IH (with_containers s)
                 (with_containers_lookup_present s _ _ H)).
      rewrite (snapshot_fraction_counts d p t Hc). reflexivity. }
  split; [exact Heq|]. by rewrite Heq.
Qed.

Lemma rendered_fractions_follow_snapshots_witness :
  rendered_fractions
    (poll_ticks progress_in_range
       (map found [in_progress_snapshot 3 10; in_progress_snapshot 5 10])
       (session_holding "t1")).2
  = map snapshot_fraction [in_progress_snapshot 3 10; in_progress_snapshot 5 10]
  /\ (non_decreasing
        (map snapshot_fraction
           [in_progress_snapshot 3 10; in_progress_snapshot 5 10]) ->
      non_decreasing
        (rendered_fractions
           (poll_ticks progress_in_range
              (map found [in_progress_snapshot 3 10; in_progress_snapshot 5 10])
              (session_holding "t1")).2)).
Proof.
  apply (rendered_fractions_follow_snapshots progress_in_range
           [in_progress_snapshot 3 10; in_progress_snapshot 5 10]
           (session_holding "t1") (STaskId "t1")).
  - reflexivity.
  - repeat constructor.
    + exists 3%Z, 10%Z. split; reflexivity.
    + exists 5%Z, 10%Z. split; reflexivity.
Defined.

(** C1, the claim refuted.  The store answers processed 5 of 10 and then
    processed 3 of 10: the second poll renders 3/10, below the 5/10 of the
    first, so the rendered fraction decreases and nothing is clamped. *)
Lemma lower_count_is_rendered :
  let outs := (poll_ticks progress_in_range
                 [found (in_progress_snapshot 5 10);
                  found (in_progress_snapshot 3 10)]
                 (session_holding "t1")).2 in
  rendered_fractions outs = [(5 # 10)%Q; (3 # 10)%Q]
  /\ ~ non_decreasing (rendered_fractions outs).
Proof.
  intros outs.
  assert (rendered_fractions outs = [(5 # 10)%Q; (3 # 10)%Q]) as H
      by (vm_compute; reflexivity).
  split; [exact H|]. rewrite H. unfold non_decreasing. intros Hs.
  apply StronglySorted_inv in Hs as [_ Hall].
  apply Forall_inv in Hall. unfold Qle in Hall. simpl in Hall. lia.
Qed.

(** ** The job builder: properties *)

Lemma rstrip_cons c r :
  rstrip (String c r)
  = match rstrip r with
    | EmptyString => if is_space c then EmptyString else String c EmptyString
    | r' => String c r'
    end.
Proof. reflexivity. Qed.

Lemma rstrip_idempotent s : rstrip (rstrip s) = rstrip s.
Proof.
  induction s as [|c r IH]; [reflexivity|].
  rewrite rstrip_cons. destruct (rstrip r) as [|c' r'] eqn:E.
  - destruct (is_space c) eqn:Ec; [reflexivity|].
    rewrite rstrip_cons. cbn [rstrip]. by rewrite Ec.
  - rewrite rstrip_cons. by rewrite IH.
Qed.

Lemma lstrip_first s :
  lstrip s = EmptyString
  \/ exists c r, lstrip s = String c r /\ is_space c = false.
Proof.
  induction s as [|c r IH]; [by left|].
  cbn [lstrip]. destruct (is_space c) eqn:Ec; [exact IH|].
  right. eauto.
Qed.

Lemma rstrip_first c r :
  is_space c = false -> exists r', rstrip (String c r) = String c r'.
Proof.
  intros Hc. rewrite rstrip_cons. destruct (rstrip r); [rewrite Hc|]; eauto.
Qed.

Lemma strip_idempotent s : strip (strip s) = strip s.
Proof.
  unfold strip.
  assert (lstrip (rstrip (lstrip s)) = rstrip (lstrip s)) as ->.
  { destruct (lstrip_first s) as [-> | (c & r & -> & Hc)]; [reflexivity|].
    destruct (rstrip_first c r Hc) as [r' ->]. cbn [lstrip]. by rewrite Hc. }
  apply rstrip_idempotent.
Qed.

Lemma str_truthy_nonempty s : str_truthy s = true -> s <> EmptyString.
Proof. by destruct s. Qed.

Example strip_example : strip "  US0000000002  " = "US0000000002".
Proof. reflexivity. Qed.

Example split_lines_example :
  split_lines (join_lines ["US0000000001"; EmptyString; "  US0000000002  "])
  = ["US0000000001"; EmptyString; "  US0000000002  "].
Proof. reflexivity. Qed.

Example blank_text_example :
  build_job (mkForm "   " (mkDate 2024 1 1) (mkDate 2024 12 31) ["slides"]
               "bucket-x")
  = inl msg_no_isin.
Proof. reflexivity. Qed.


Lemma doc_types_empty (l : list string) :
  match l with [] => true | _ => false end = true <-> l = [].
Proof. by destruct l. Qed.

Lemma str_truthy_false s : negb (str_truthy s) = true <-> s = EmptyString.
Proof. by destruct s. Qed.

(** The first guard fails exactly when one of the three inputs is
    empty. *)
Lemma required_fields_guard f :
  negb (str_truthy (isin_input f)) || negb (str_truthy (s3_bucket f))
  || match doc_types f with [] => true | _ => false end = true
  <-> (isin_input f = EmptyString \/ s3_bucket f = EmptyString
       \/ doc_types f = []).
Proof.
  rewrite !orb_true_iff, !str_truthy_false, doc_types_empty. tauto.
Qed.

(** C2, as the program has it.  The builder has three guards, tried in
    this order, the first that fails deciding the message: one guard for
    the three required inputs together (raw identifier text, destination
    name, document kinds), with one message whichever of them is empty;
    then the order of the dates; then the identifiers left after trimming
    and dropping blank lines.  Only a form that passes all three builds a
    job. *)
Theorem build_job_first_failed_guard f :
  let missing := isin_input f = EmptyString \/ s3_bucket f = EmptyString
                 \/ doc_types f = [] in
  let reversed := date_gt (start_date f) (end_date f) = true in
  let no_isin := isin_list_of (isin_input f) = [] in
  (build_job f = inl msg_required_fields <-> missing)
  /\ (build_job f = inl msg_date_order <-> ~ missing /\ reversed)
  /\ (build_job f = inl msg_no_isin <-> ~ missing /\ ~ reversed /\ no_isin)
  /\ ((exists job, build_job f = inr job)
      <-> ~ missing /\ ~ reversed /\ ~ no_isin).
Proof.
  intros missing reversed no_isin. subst missing reversed no_isin.
  pose proof (required_fields_guard f) as Hg.
  unfold build_job.
  destruct (negb (str_truthy (isin_input f)) || negb (str_truthy (s3_bucket f))
            || match doc_types f with [] => true | _ => false end) eqn:G.
  { assert (isin_input f = EmptyString \/ s3_bucket f = EmptyString
            \/ doc_types f = []) as Hm by (by apply Hg).
    clear Hg G. settle_guard. }
  assert (~ (isin_input f = EmptyString \/ s3_bucket f = EmptyString
             \/ doc_types f = [])) as Hm.
  { intros Hm. apply Hg in Hm. congruence. }
  clear Hg G.
  destruct (date_gt (start_date f) (end_date f)) eqn:D; [settle_guard|].
  destruct (isin_list_of (isin_input f)) as [|x l] eqn:L; settle_guard.
Qed.

(** C2, the claim refuted.  A form with no destination and a form with
    no document kind are refused with the same message, so the two rules
    have no error of their own; and a form with no identifier text and
    reversed dates is refused with that message too, not with the message
    of the date rule. *)
Lemma required_fields_share_one_error :
  build_job form_no_destination = inl msg_required_fields
  /\ build_job form_no_kinds = inl msg_required_fields
  /\ build_job form_no_destination = build_job form_no_kinds
  /\ build_job form_no_text_reversed_dates = inl msg_required_fields
  /\ build_job form_no_text_reversed_dates <> inl msg_date_order.
Proof. repeat split; try reflexivity. discriminate. Qed.

(** ** Configuration check: properties *)

(** The check passes exactly when the five variables are set and not
    empty. *)
Lemma env_check_iff (env : gmap string string) :
  py_all (checked_values (load_config env)) = true
  <-> forall k, In k required_keys ->
                opt_truthy (get_env_variable env k) = true.
Proof.
  unfold py_all, checked_values, load_config, required_keys. cbn [forallb In].
  rewrite !andb_true_iff. split.
  - intros (H1 & H2 & H3 & H4 & H5 & _) k Hk.
    destruct Hk as [<- | [<- | [<- | [<- | [<- | []]]]]]; assumption.
  - intros H. repeat split; apply H; tauto.
Qed.

Lemma main_config_error w i (s : gmap string sval) :
  health_query i <> Some "check" ->
  py_all (checked_values (load_config (environ i))) = false ->
  main w i s
  = (s, [UiTitle "Quartr Data Retrieval and S3 Upload";
         UiError msg_missing_env], Returned tt).
Proof.
  intros Hh Hc. unfold main.
  erewrite bind_pure;
    last (unfold init_routes; by rewrite bool_decide_eq_false_2).
  cbv beta iota. rewrite bind_emit, Hc. reflexivity.
Qed.

(** C4, the claim refuted.  With the five checked variables set and no
    default bucket in the environment, the run passes the check, shows the
    form with an empty default, and the submitted job is enqueued. *)
Lemma missing_default_bucket_does_not_stop :
  get_env_variable env_without_bucket "DEFAULT_S3_BUCKET" = None
  /\ (run_script progress_in_range (submit_run env_without_bucket) ∅).1.2
     = [SetPageConfig; UiTitle "Quartr Data Retrieval and S3 Upload";
        UiForm EmptyString; Enqueue scenario_job; Rerun]
  /\ (run_script progress_in_range (submit_run env_without_bucket) ∅).1.1
       !! "task_id" = Some (STaskId "task-1").
Proof. repeat split; vm_compute; reflexivity. Qed.

(** ** The queue health probe: properties *)

(** C6, as the program has it.  The probe tells five cases apart and
    words each differently: the sentinel 'pong'; any other response, whose
    text the message carries; a task exception, whose reason the message
    carries; a timeout error; and any other exception, raised when the
    job is enqueued or while waiting, reported as a failed connection with
    its text.  Two probes that fall in different cases never give the same
    result. *)
Theorem probe_tells_five_cases_apart :
  test_queue_connection (Returned tt) (Returned (PStr "pong"))
  = (true, msg_probe_ok)
  /\ (forall v, py_eq_str v "pong" = false ->
      test_queue_connection (Returned tt) (Returned v)
      = (false, "Unexpected response from queue: " ++ py_str v))
  /\ (forall m,
      test_queue_connection (Returned tt) (Raised (TaskException m))
      = (false, "Task execution failed: " ++ m))
  /\ (forall m,
      test_queue_connection (Returned tt) (Raised (TimeoutError m))
      = (false, msg_probe_timeout))
  /\ (forall m,
      test_queue_connection (Returned tt) (Raised (PyException m))
      = (false, "Queue connection failed: " ++ m))
  /\ (forall e get,
      test_queue_connection (Raised e) get
      = (false, "Queue connection failed: " ++ exn_str e))
  /\ (forall ping get ping' get',
      probe_case_of ping get <> probe_case_of ping' get' ->
      test_queue_connection ping get <> test_queue_connection ping' get').
Proof.
  repeat split.
  - intros v Hv. cbn. by rewrite Hv.
  - intros ping get ping' get' Hne Heq. apply Hne. clear Hne.
    unfold test_queue_connection, probe_case_of, msg_probe_ok,
      msg_probe_timeout in *.
    destruct ping as [[]|e], ping' as [[]|e'];
      destruct get as [v|[m|m|m]], get' as [v'|[m'|m'|m']];
      try destruct (py_eq_str v "pong");
      try destruct (py_eq_str v' "pong");
      try reflexivity; cbn in Heq; discriminate Heq.
Qed.

(** C6, the claim refuted.  When the queue cannot be reached, so that
    enqueuing the probe job raises, the result is none of the four of the
    design: it is a fifth one, a failed connection. *)
Lemma enqueue_failure_is_a_fifth_result :
  test_queue_connection (Raised (PyException "Connection refused"))
    (Returned PNone)
  = (false, "Queue connection failed: Connection refused")
  /\ ~ (exists r : HealthProbeResult,
          test_queue_connection (Raised (PyException "Connection refused"))
            (Returned PNone) = report r).
Proof.
  split; [reflexivity|].
  intros [[|v|m|] H]; cbn in H; discriminate H.
Qed.

(** ** The progress poll: every way a tick can go *)

Lemma bind_returned {A B} (m : script A) (k : A -> script B) s s1 out a :
  m s = (s1, out, Returned a) ->
  bind m k s = let '(s2, out2, r) := k a s1 in (s2, (out ++ out2)%list, r).
Proof. unfold bind. by intros ->. Qed.

Lemma st_progress_cases w q (s : gmap string sval) :
  st_progress w q s
  = match w q with
    | Some e => (s, [], Raised e)
    | None => (s, [UiProgress q], Returned tt)
    end.
Proof. unfold st_progress. by destruct (w q). Qed.

Lemma progress_then_two w q a b (s : gmap string sval) :
  bind (st_progress w q) (fun _ => bind (emit a) (fun _ => emit b)) s
  = match w q with
    | Some e => (s, [], Raised e)
    | None => (s, [UiProgress q; a; b], Returned tt)
    end.
Proof. unfold bind at 1. rewrite st_progress_cases. by destruct (w q). Qed.

(** The 'In Progress' branch either renders its page or raises before
    rendering anything, and leaves the session state alone. *)
Lemma render_in_progress_cases w (d : gmap string pyval)
  (s : gmap string sval) :
  (exists q, render_in_progress w d s = (s, in_progress_page d q, Returned tt))
  \/ (exists e, render_in_progress w d s = (s, [], Raised e)).
Proof.
  unfold render_in_progress, in_progress_page.
  destruct (py_gt_zero (dict_get d "total" (PInt 0))) as [positive|e] eqn:Hg;
    [|right; eexists; reflexivity].
  erewrite bind_pure; last reflexivity.
  destruct (if positive
            then py_truediv (dict_get d "processed" (PInt 0))
                   (dict_get d "total" (PInt 0))
            else Returned 0%Q) as [q|e] eqn:Hq;
    [|right; eexists; reflexivity].
  erewrite bind_pure; last reflexivity.
  rewrite progress_then_two. destruct (w q) as [e|]; eauto.
Qed.

Lemma render_complete_cases w (d : gmap string pyval) (s : gmap string sval) :
  render_complete w d s
  = match w 1%Q with
    | Some e => (s, [], Raised e)
    | None => (delete "task_id" s, complete_page d, Returned tt)
    end.
Proof.
  unfold render_complete, complete_page, bind at 1.
  rewrite st_progress_cases. by destruct (w 1%Q).
Qed.

(** The four ways the guarded branches can end when a handle is held. *)
Lemma guarded_render_cases w (d : gmap string pyval)
  (s : gmap string sval) id :
  s !! "task_id" = Some id ->
  let r := try_except (render_result w d) on_error s in
  r = (s, [], Returned tt)
  \/ (exists q, r = (s, in_progress_page d q, Returned tt))
  \/ (exists m, r = (delete "task_id" s, [UiError m], Returned tt))
  \/ r = (delete "task_id" s, complete_page d, Returned tt).
Proof.
  intros H r. subst r. unfold render_result.
  destruct (py_eq_str (dict_get d "status" PNone) "In Progress").
  { destruct (render_in_progress_cases w d s) as [[q Hq] | [e He]].
    - right; left. exists q. by apply try_except_returned.
    - right; right; left. eexists.
      erewrite try_except_raised; last exact He.
      by apply on_error_held with (id := id). }
  destruct (py_eq_str (dict_get d "status" PNone) "Complete").
  { pose proof (render_complete_cases w d s) as Hc.
    destruct (w 1%Q) as [e|].
    - right; right; left. eexists.
      erewrite try_except_raised; last exact Hc.
      by apply on_error_held with (id := id).
    - right; right; right. by apply try_except_returned. }
  destruct (py_eq_str (dict_get d "status" PNone) "Failed").
  { right; right; left. eexists. apply failed_disposes. }
  by left.
Qed.

(** The ways one poll can end: nothing happens; the placeholders are
    ensured and nothing or the progress page is rendered; or the handle is
    removed after an error message or the completion page. *)
Lemma poll_cases w read (s : gmap string sval) :
  let r := check_task_status w read s in
  r = (s, [], Returned tt)
  \/ (is_Some (s !! "task_id")
      /\ (r = (with_containers s, [], Returned tt)
          \/ (exists d q,
                r = (with_containers s, in_progress_page d q, Returned tt))
          \/ (exists m,
                r = (delete "task_id" (with_containers s), [UiError m],
                     Returned tt))
          \/ (exists d,
                r = (delete "task_id" (with_containers s), complete_page d,
                     Returned tt)))).
Proof.
  intros r. subst r.
  destruct (s !! "task_id") as [id|] eqn:H;
    [|left; by apply check_task_status_idle].
  right. split; [eauto|].
  rewrite (check_task_status_held _ _ _ _ H).
  destruct read as [[d|]|e]; [| by left | right; right; left; eauto].
  destruct (dict_truthy d); [|by left].
  destruct (guarded_render_cases w d (with_containers s) id
              (with_containers_lookup_present s _ _ H))
    as [-> | [[q ->] | [[m ->] | ->]]]; eauto 8.
Qed.

Lemma with_containers_lookup_task_id (s : gmap string sval) :
  with_containers s !! "task_id" = s !! "task_id".
Proof.
  unfold with_containers, add_default.
  repeat match goal with
         | |- context [match ?m !! ?k with _ => _ end] =>
             destruct (m !! k) eqn:?
         end;
    rewrite ?lookup_insert_ne by done; reflexivity.
Qed.

Lemma lookup_delete_task_id_other (s : gmap string sval) k v :
  k <> "task_id" -> s !! k = Some v ->
  delete "task_id" (with_containers s) !! k = Some v.
Proof.
  intros Hk H. rewrite lookup_delete_ne by done.
  by apply with_containers_lookup_present.
Qed.

(** X1.  A poll never lets an exception escape, whatever the store read
    and the widget do; it keeps every session entry other than the handle
    as it was; and the handle is afterwards either the one held before or
    gone: a poll never creates or replaces a handle. *)
Theorem poll_returns_and_frames_session w read (s : gmap string sval) :
  let r := check_task_status w read s in
  r.2 = Returned tt
  /\ (forall k v, k <> "task_id" -> s !! k = Some v -> r.1.1 !! k = Some v)
  /\ (r.1.1 !! "task_id" = s !! "task_id" \/ r.1.1 !! "task_id" = None).
Proof.
  intros r. subst r.
  destruct (poll_cases w read s)
    as [-> | (_ & [-> | [(d & q & ->) | [(m & ->) | (d & ->)]]])];
    cbn [fst snd]; (split; [reflexivity|]); split;
    try (intros k v Hk Hv;
         first [ exact Hv
               | by apply with_containers_lookup_present
               | by apply lookup_delete_task_id_other ]);
    first [ by left
          | left; apply with_containers_lookup_task_id
          | right; apply lookup_delete_eq ].
Qed.

Lemma errors_of_in_progress_page d q : errors_of (in_progress_page d q) = [].
Proof. reflexivity. Qed.

Lemma errors_of_complete_page d : errors_of (complete_page d) = [].
Proof. reflexivity. Qed.

(** X2.  Whenever a poll renders an error message, the handle is gone
    from the session state afterwards and no progress value was rendered
    in that tick: an error always ends the tracking. *)
Theorem rendered_error_means_disposed w read (s : gmap string sval) :
  let r := check_task_status w read s in
  errors_of r.1.2 <> [] ->
  r.1.1 !! "task_id" = None /\ fractions_of r.1.2 = [].
Proof.
  intros r. subst r.
  destruct (poll_cases w read s)
    as [-> | (_ & [-> | [(d & q & ->) | [(m & ->) | (d & ->)]]])];
    cbn [fst snd]; intros Herr;
    try (exfalso; apply Herr; reflexivity).
  split; [apply lookup_delete_eq | reflexivity].
Qed.

Lemma rendered_error_means_disposed_witness :
  let r := check_task_status progress_in_range (found failed_snapshot)
             (session_holding "t1") in
  r.1.1 !! "task_id" = None /\ fractions_of r.1.2 = [].
Proof.
  apply (rendered_error_means_disposed progress_in_range
           (found failed_snapshot) (session_holding "t1")).
  vm_compute. discriminate.
Defined.

(** X3.  A poll never drops the handle silently: if a handle was held
    before the poll and is gone after it, the poll rendered something (an
    error message or the completion page). *)
Theorem disposal_is_never_silent w read (s : gmap string sval) id :
  let r := check_task_status w read s in
  s !! "task_id" = Some id ->
  r.1.1 !! "task_id" = None ->
  r.1.2 <> [].
Proof.
  intros r H. subst r.
  destruct (poll_cases w read s)
    as [-> | (_ & [-> | [(d & q & ->) | [(m & ->) | (d & ->)]]])];
    cbn [fst snd]; intros Hgone; try discriminate.
  - congruence.
  - rewrite with_containers_lookup_task_id in Hgone. congruence.
Qed.

Lemma disposal_is_never_silent_witness :
  let r := check_task_status progress_in_range (found complete_snapshot)
             (session_holding "t1") in
  r.1.2 <> [].
Proof.
  apply (disposal_is_never_silent progress_in_range (found complete_snapshot)
           (session_holding "t1") (STaskId "t1")).
  - reflexivity.
  - vm_compute. reflexivity.
Defined.

(** X4.  Without a handle the tracker stays idle under polling: any
    sequence of ticks, whatever the store would answer, renders nothing at
    any tick and leaves the session state exactly as it was. *)
Theorem idle_is_absorbing w reads (s : gmap string sval) :
  s !! "task_id" = None ->
  poll_ticks w reads s = (s, map (fun _ => []) reads).
Proof.
  intros H. induction reads as [|read rest IH]; [reflexivity|].
  rewrite (poll_ticks_cons w read rest s s [] (Returned tt))
    by (by apply check_task_status_idle).
  rewrite IH. reflexivity.
Qed.

Lemma idle_is_absorbing_witness :
  poll_ticks progress_in_range
    [found complete_snapshot; Raised (PyException "Connection refused");
     absent] ∅
  = (∅, map (fun _ => [])
          [found complete_snapshot; Raised (PyException "Connection refused");
           absent]).
Proof.
  apply (idle_is_absorbing progress_in_range
           [found complete_snapshot; Raised (PyException "Connection refused");
            absent] ∅).
  reflexivity.
Defined.

Lemma poll_known_status w (d : gmap string pyval) st
  (s : gmap string sval) id :
  s !! "task_id" = Some id ->
  d !! "status" = Some (PStr st) ->
  check_task_status w (found d) s
  = try_except
      (if String.eqb st "In Progress" then render_in_progress w d
       else if String.eqb st "Complete" then render_complete w d
       else if String.eqb st "Failed" then render_failed d
       else ret tt)
      on_error (with_containers s).
Proof.
  intros H Hd. unfold found. rewrite (check_task_status_held _ _ _ _ H).
  rewrite (status_dict_truthy _ _ Hd). unfold render_result.
  by rewrite (dict_get_status _ _ Hd).
Qed.

(** X5.  A 'Failed' snapshot is reported with the error text it carries,
    and with the text 'Unknown error' when it carries none; either way the
    one error message is all the poll renders and the handle is removed. *)
Theorem failed_snapshot_reports_its_error w (d : gmap string pyval)
  (s : gmap string sval) id :
  s !! "task_id" = Some id ->
  d !! "status" = Some (PStr "Failed") ->
  let text := match d !! "error" with
              | Some v => py_str v
              | None => "Unknown error"
              end in
  check_task_status w (found d) s
  = (delete "task_id" (with_containers s),
     [UiError ("Processing failed: " ++ text)], Returned tt).
Proof.
  intros H Hd text. subst text.
  rewrite (poll_known_status w d "Failed" s id H Hd).
  change (String.eqb "Failed" "In Progress") with false.
  change (String.eqb "Failed" "Complete") with false.
  change (String.eqb "Failed" "Failed") with true. cbv iota.
  rewrite failed_disposes. unfold dict_get.
  by destruct (d !! "error").
Qed.

Lemma failed_snapshot_reports_its_error_witness :
  let text := match failed_snapshot !! "error" with
              | Some v => py_str v
              | None => "Unknown error"
              end in
  check_task_status progress_in_range (found failed_snapshot)
    (session_holding "t1")
  = (delete "task_id" (with_containers (session_holding "t1")),
     [UiError ("Processing failed: " ++ text)], Returned tt).
Proof.
  apply (failed_snapshot_reports_its_error progress_in_range failed_snapshot
           (session_holding "t1") (STaskId "t1")); reflexivity.
Defined.

(** X6.  A 'Complete' snapshot, when the widget accepts the value 1,
    renders a full progress bar, the completion text and the final
    tallies, each tally that the snapshot lacks shown as 0, and removes
    the handle. *)
Theorem complete_snapshot_renders_final_page w (d : gmap string pyval)
  (s : gmap string sval) id :
  s !! "task_id" = Some id ->
  d !! "status" = Some (PStr "Complete") ->
  w 1%Q = None ->
  check_task_status w (found d) s
  = (delete "task_id" (with_containers s), complete_page d, Returned tt)
  /\ (d !! "total" = None -> d !! "success" = None -> d !! "failed" = None ->
      complete_page d
      = [UiProgress 1%Q; UiStatusText "Processing complete!";
         UiResultsText
           ("Final results:" ++ nl ++ "Total files processed: 0" ++ nl
            ++ "Successful uploads: 0" ++ nl ++ "Failed uploads: 0")]).
Proof.
  intros H Hd Hw. split.
  - rewrite (poll_known_status w d "Complete" s id H Hd).
    change (String.eqb "Complete" "In Progress") with false.
    change (String.eqb "Complete" "Complete") with true. cbv iota.
    apply try_except_returned. rewrite render_complete_cases. by rewrite Hw.
  - intros Ht Hs Hf. unfold complete_page, dict_get. by rewrite Ht, Hs, Hf.
Qed.

Lemma complete_snapshot_renders_final_page_witness :
  check_task_status progress_in_range (found complete_snapshot)
    (session_holding "t1")
  = (delete "task_id" (with_containers (session_holding "t1")),
     complete_page complete_snapshot, Returned tt)
  /\ (complete_snapshot !! "total" = None ->
      complete_snapshot !! "success" = None ->
      complete_snapshot !! "failed" = None ->
      complete_page complete_snapshot
      = [UiProgress 1%Q; UiStatusText "Processing complete!";
         UiResultsText
           ("Final results:" ++ nl ++ "Total files processed: 0" ++ nl
            ++ "Successful uploads: 0" ++ nl ++ "Failed uploads: 0")]).
Proof.
  apply (complete_snapshot_renders_final_page progress_in_range
           complete_snapshot (session_holding "t1") (STaskId "t1"));
    reflexivity.
Defined.

(** X7.  An 'In Progress' snapshot whose total is present but is not an
    integer (it is None or a string) makes the comparison with 0 raise; the
    poll catches it, renders the text of that type error as its only
    output, and removes the handle. *)
Theorem in_progress_bad_total_disposes w (d : gmap string pyval) v
  (s : gmap string sval) id :
  s !! "task_id" = Some id ->
  d !! "status" = Some (PStr "In Progress") ->
  d !! "total" = Some v ->
  (forall z, v <> PInt z) ->
  check_task_status w (found d) s
  = (delete "task_id" (with_containers s),
     [UiError ("Error checking task status: "
               ++ "'>' not supported between instances of '"
               ++ py_type_name v ++ "' and 'int'")],
     Returned tt).
Proof.
  intros H Hd Ht Hv.
  rewrite (poll_known_status w d "In Progress" s id H Hd).
  change (String.eqb "In Progress" "In Progress") with true. cbv iota.
  assert (render_in_progress w d (with_containers s)
          = (with_containers s, [],
             Raised (PyException
                       ("'>' not supported between instances of '"
                        ++ py_type_name v ++ "' and 'int'")))) as Hr.
  { unfold render_in_progress, dict_get. rewrite Ht.
    destruct v as [|z|x]; [reflexivity | by destruct (Hv z) | reflexivity]. }
  erewrite try_except_raised; last exact Hr.
  apply on_error_held with (id := id).
  by apply with_containers_lookup_present.
Qed.

Lemma in_progress_bad_total_disposes_witness :
  check_task_status progress_in_range
    (found (<["total" := PNone]> (in_progress_snapshot 5 10)))
    (session_holding "t1")
  = (delete "task_id" (with_containers (session_holding "t1")),
     [UiError ("Error checking task status: "
               ++ "'>' not supported between instances of '"
               ++ py_type_name PNone ++ "' and 'int'")],
     Returned tt).
Proof.
  apply (in_progress_bad_total_disposes progress_in_range
           (<["total" := PNone]> (in_progress_snapshot 5 10)) PNone
           (session_holding "t1") (STaskId "t1")).
  - reflexivity.
  - reflexivity.
  - reflexivity.
  - intros z. discriminate.
Defined.

(** X8.  An 'In Progress' snapshot with no total is rendered with total
    0 and progress 0, whatever its processed entry is, an integer or not:
    the quotient is not evaluated, so nothing can raise before the widget,
    and the handle stays held. *)
Theorem in_progress_missing_total_renders_zero w (d : gmap string pyval)
  (s : gmap string sval) id :
  s !! "task_id" = Some id ->
  d !! "status" = Some (PStr "In Progress") ->
  d !! "total" = None ->
  w 0%Q = None ->
  check_task_status w (found d) s
  = (with_containers s, in_progress_page d 0%Q, Returned tt)
  /\ dict_get d "total" (PInt 0) = PInt 0.
Proof.
  intros H Hd Ht Hw.
  assert (dict_get d "total" (PInt 0) = PInt 0) as Hz
      by (unfold dict_get; by rewrite Ht).
  split; [|exact Hz].
  rewrite (poll_known_status w d "In Progress" s id H Hd).
  change (String.eqb "In Progress" "In Progress") with true. cbv iota.
  apply try_except_returned.
  unfold render_in_progress, in_progress_page. rewrite Hz.
  cbn [py_gt_zero Z.ltb Z.compare].
  erewrite bind_pure; last reflexivity.
  erewrite bind_pure; last reflexivity.
  rewrite progress_then_two. by rewrite Hw.
Qed.

Lemma in_progress_missing_total_renders_zero_witness :
  check_task_status progress_in_range
    (found (<["processed" := PNone]> (delete "total" (in_progress_snapshot 5 10))))
    (session_holding "t1")
  = (with_containers (session_holding "t1"),
     in_progress_page
       (<["processed" := PNone]> (delete "total" (in_progress_snapshot 5 10)))
       0%Q,
     Returned tt)
  /\ dict_get
       (<["processed" := PNone]> (delete "total" (in_progress_snapshot 5 10)))
       "total" (PInt 0) = PInt 0.
Proof.
  apply (in_progress_missing_total_renders_zero progress_in_range
           (<["processed" := PNone]>
              (delete "total" (in_progress_snapshot 5 10)))
           (session_holding "t1") (STaskId "t1")); reflexivity.
Defined.

(** X9.  An empty dict read from the store is treated exactly as no
    snapshot at all, in every session state: nothing is rendered and the
    handle is kept. *)
Theorem empty_snapshot_is_absent w (s : gmap string sval) :
  check_task_status w (found ∅) s = check_task_status w absent s
  /\ (check_task_status w (found ∅) s).1.2 = []
  /\ (check_task_status w (found ∅) s).1.1 !! "task_id" = s !! "task_id".
Proof.
  destruct (s !! "task_id") as [id|] eqn:H.
  - unfold found, absent. rewrite !(check_task_status_held _ _ _ _ H).
    change (dict_truthy ∅) with false. cbv iota. cbn [fst snd].
    rewrite with_containers_lookup_task_id. by rewrite H.
  - rewrite !(check_task_status_idle _ _ _ H). cbn [fst snd]. by rewrite H.
Qed.

(** ** The job builder: further properties *)

Lemma split_lines_nonempty s : exists h t, split_lines s = h :: t.
Proof.
  induction s as [|c r (h & t & IH)]; [by eexists _, _|].
  cbn [split_lines]. destruct (Ascii.eqb c "010"); [by eexists _, _|].
  rewrite IH. by eexists _, _.
Qed.

Lemma split_lines_app a b :
  split_lines (a ++ String "010"%char b)
  = (split_lines a ++ split_lines b)%list.
Proof.
  induction a as [|c r IH]; [reflexivity|].
  change (String c r ++ String "010"%char b)
    with (String c (r ++ String "010"%char b)).
  cbn [split_lines]. rewrite IH.
  destruct (Ascii.eqb c "010"); [reflexivity|].
  destruct (split_lines_nonempty r) as (h & t & ->). reflexivity.
Qed.

Lemma split_lines_newline_free x :
  newline_free x = true -> split_lines x = [x].
Proof.
  induction x as [|c r IH]; [reflexivity|].
  cbn [newline_free split_lines]. intros H.
  apply andb_true_iff in H as [Hc Hr].
  destruct (Ascii.eqb c "010"); [discriminate|].
  by rewrite (IH Hr).
Qed.

Lemma isin_list_of_clean_line x : clean_line x -> isin_list_of x = [x].
Proof.
  intros (Hne & Hs & Hn). unfold isin_list_of.
  rewrite (split_lines_newline_free x Hn). cbn [List.filter].
  unfold stripped in Hs. rewrite Hs.
  destruct x; [done|]. cbn [str_truthy map]. by rewrite Hs.
Qed.

(** X10.  The identifiers of two texts put one after the other, with a
    line feed between them, are the identifiers of the first followed by
    those of the second: lines are treated one by one, order and
    repetitions are kept. *)
Theorem isin_list_of_concatenation a b :
  isin_list_of (a ++ nl ++ b) = (isin_list_of a ++ isin_list_of b)%list.
Proof.
  unfold isin_list_of.
  change (a ++ nl ++ b) with (a ++ String "010"%char b).
  by rewrite split_lines_app, List.filter_app, map_app.
Qed.

(** X11.  Identifiers written one per line come back as they were: for
    lines that are not empty, have no white space at either end and no
    line feed inside, reading the text that joins them gives the same
    list, in the same order, repetitions included. *)
Theorem isin_list_of_joined_lines (l : list string) :
  Forall clean_line l -> isin_list_of (join_lines l) = l.
Proof.
  induction 1 as [|x l Hx Hl IH]; [reflexivity|].
  destruct l as [|y l'].
  - cbn [join_lines]. by apply isin_list_of_clean_line.
  - change (join_lines (x :: y :: l'))
      with (x ++ String "010"%char (join_lines (y :: l'))).
    unfold isin_list_of in *. rewrite split_lines_app, List.filter_app, map_app.
    rewrite IH. fold (isin_list_of x).
    by rewrite (isin_list_of_clean_line x Hx).
Qed.

Lemma isin_list_of_joined_lines_witness :
  isin_list_of (join_lines ["US0000000002"; "US0000000001"; "US0000000002"])
  = ["US0000000002"; "US0000000001"; "US0000000002"].
Proof.
  apply (isin_list_of_joined_lines
           ["US0000000002"; "US0000000001"; "US0000000002"]).
  repeat constructor; discriminate.
Defined.

Lemma lstrip_all_space s : all_space s = true -> lstrip s = EmptyString.
Proof.
  induction s as [|c r IH]; [reflexivity|].
  cbn [all_space lstrip]. intros H. apply andb_true_iff in H as [-> Hr].
  by apply IH.
Qed.

Lemma split_lines_all_space s :
  all_space s = true -> Forall (fun l => all_space l = true) (split_lines s).
Proof.
  induction s as [|c r IH]; [by repeat constructor|].
  cbn [all_space split_lines]. intros H.
  apply andb_true_iff in H as [Hc Hr]. specialize (IH Hr).
  destruct (Ascii.eqb c "010"); [by constructor|].
  destruct (split_lines r) as [|h t]; [by repeat constructor; cbn; rewrite Hc|].
  apply Forall_cons in IH as [Hh Ht].
  constructor; [|exact Ht]. cbn [all_space]. by rewrite Hc, Hh.
Qed.

Lemma isin_list_of_all_space s : all_space s = true -> isin_list_of s = [].
Proof.
  intros H. unfold isin_list_of.
  induction (split_lines_all_space s H) as [|l ls Hl _ IH]; [reflexivity|].
  cbn [List.filter].
  assert (strip l = EmptyString) as ->
      by (unfold strip; by rewrite (lstrip_all_space l Hl)).
  exact IH.
Qed.

(** X12.  A text that is not empty but holds white space only (blanks,
    tabs, line feeds) passes the required-fields guard and is refused, when
    the dates are in order, with the message that no valid identifier was
    entered. *)
Theorem white_space_text_has_no_identifier f :
  isin_input f <> EmptyString ->
  all_space (isin_input f) = true ->
  s3_bucket f <> EmptyString ->
  doc_types f <> [] ->
  date_gt (start_date f) (end_date f) = false ->
  build_job f = inl msg_no_isin.
Proof.
  intros Hi Hsp Hb Hk Hd. unfold build_job.
  destruct (isin_input f) as [|c r] eqn:Ei; [done|].
  destruct (s3_bucket f) as [|c' r'] eqn:Eb; [done|].
  destruct (doc_types f) as [|k ks] eqn:Ek; [done|].
  cbn [str_truthy negb orb]. rewrite Hd.
  by rewrite (isin_list_of_all_space _ Hsp).
Qed.

Lemma white_space_text_has_no_identifier_witness :
  build_job (mkForm ("  " ++ nl ++ " ") (mkDate 2024 1 1) (mkDate 2024 12 31)
               ["slides"] "bucket-x")
  = inl msg_no_isin.
Proof.
  apply (white_space_text_has_no_identifier
           (mkForm ("  " ++ nl ++ " ") (mkDate 2024 1 1) (mkDate 2024 12 31)
              ["slides"] "bucket-x"));
    try discriminate; reflexivity.
Defined.

Lemma date_gt_irrefl a : date_gt a a = false.
Proof.
  unfold date_gt. rewrite !Z.ltb_irrefl, !Z.eqb_refl. reflexivity.
Qed.

Lemma date_gt_asym a b : date_gt a b = true -> date_gt b a = false.
Proof.
  unfold date_gt. intros H.
  destruct (Z.ltb_spec (year b) (year a)), (Z.ltb_spec (year a) (year b)),
    (Z.eqb_spec (year a) (year b)), (Z.eqb_spec (year b) (year a)),
    (Z.ltb_spec (month b) (month a)), (Z.ltb_spec (month a) (month b)),
    (Z.eqb_spec (month a) (month b)), (Z.eqb_spec (month b) (month a)),
    (Z.ltb_spec (day b) (day a)), (Z.ltb_spec (day a) (day b));
    cbn in *; try reflexivity; try discriminate; lia.
Qed.

Lemma build_job_date_error f :
  build_job f = inl msg_date_order ->
  date_gt (start_date f) (end_date f) = true.
Proof.
  unfold build_job.
  destruct (negb (str_truthy (isin_input f)) || negb (str_truthy (s3_bucket f))
            || match doc_types f with [] => true | _ => false end);
    [discriminate|].
  destruct (date_gt (start_date f) (end_date f)); [done|].
  destruct (isin_list_of (isin_input f)); discriminate.
Qed.

(** X13.  The date guard refuses only a start strictly after the end: a
    range of one day (start equal to end) is never refused for its dates,
    and a form refused for its dates is not refused for them once the two
    dates are exchanged. *)
Theorem date_guard_is_strict f :
  (start_date f = end_date f -> build_job f <> inl msg_date_order)
  /\ (build_job f = inl msg_date_order ->
      build_job (swap_dates f) <> inl msg_date_order).
Proof.
  split.
  - intros Heq Herr. apply build_job_date_error in Herr.
    rewrite Heq, date_gt_irrefl in Herr. discriminate.
  - intros Herr Herr'. apply build_job_date_error in Herr, Herr'.
    cbn [swap_dates start_date end_date] in Herr'.
    apply date_gt_asym in Herr. congruence.
Qed.

Lemma isin_list_of_kept raw :
  Forall (fun x => x <> EmptyString /\ stripped x) (isin_list_of raw).
Proof.
  unfold isin_list_of.
  induction (split_lines raw) as [|l ls IH]; [constructor|].
  cbn [List.filter]. destruct (str_truthy (strip l)) eqn:E; [|exact IH].
  cbn [map]. constructor; [|exact IH].
  split; [by apply str_truthy_nonempty | apply strip_idempotent].
Qed.

(** X14.  Every job the builder lets through is well formed: it has at
    least one identifier, each identifier non-empty and trimmed; its
    document kinds and destination are those of the form and are not
    empty; its start is not after its end; and its two dates are the
    form's dates written as year-month-day. *)
Theorem built_job_is_well_formed f job :
  build_job f = inr job ->
  job_isins job <> []
  /\ Forall (fun x => x <> EmptyString /\ stripped x) (job_isins job)
  /\ job_doc_types job = doc_types f /\ job_doc_types job <> []
  /\ job_bucket job = s3_bucket f /\ job_bucket job <> EmptyString
  /\ date_gt (start_date f) (end_date f) = false
  /\ job_start job = strftime_ymd (start_date f)
  /\ job_end job = strftime_ymd (end_date f).
Proof.
  unfold build_job.
  destruct (isin_input f) as [|c r] eqn:Ei; [discriminate|].
  destruct (s3_bucket f) as [|c' r'] eqn:Eb; [discriminate|].
  destruct (doc_types f) as [|k ks] eqn:Ek; [discriminate|].
  cbn [str_truthy negb orb].
  destruct (date_gt (start_date f) (end_date f)); [discriminate|].
  pose proof (isin_list_of_kept (String c r)) as Hkept.
  destruct (isin_list_of (String c r)) as [|x l]; [discriminate|].
  intros [= <-]. cbn. by repeat split.
Qed.

Lemma built_job_is_well_formed_witness :
  job_isins scenario_job <> []
  /\ Forall (fun x => x <> EmptyString /\ stripped x) (job_isins scenario_job)
  /\ job_doc_types scenario_job = doc_types scenario_form
  /\ job_doc_types scenario_job <> []
  /\ job_bucket scenario_job = s3_bucket scenario_form
  /\ job_bucket scenario_job <> EmptyString
  /\ date_gt (start_date scenario_form) (end_date scenario_form) = false
  /\ job_start scenario_job = strftime_ymd (start_date scenario_form)
  /\ job_end scenario_job = strftime_ymd (end_date scenario_form).
Proof.
  apply (built_job_is_well_formed scenario_form scenario_job).
  reflexivity.
Defined.

(** ** The queue health probe: further properties *)

(** X15.  The probe reports success in one case only: the probe job was
    enqueued and the wait returned exactly the string 'pong'.  Any
    exception, and any other response (None, a number, another string),
    gives a failure. *)
Theorem probe_succeeds_only_on_pong ping get :
  (test_queue_connection ping get).1 = true
  <-> (exists u, ping = Returned u) /\ get = Returned (PStr "pong").
Proof.
  split.
  - unfold test_queue_connection.
    destruct ping as [u|e]; [|discriminate].
    destruct get as [v|[m|m|m]]; try discriminate.
    destruct (py_eq_str v "pong") eqn:E; [|discriminate].
    intros _. apply py_eq_str_true in E. subst v. eauto.
  - intros [[u ->] ->]. reflexivity.
Qed.

(** ** The script: properties of a run *)

Lemma poll_result_returned w read (s : gmap string sval) :
  (check_task_status w read s).2 = Returned tt.
Proof.
  destruct (poll_cases w read s)
    as [-> | (_ & [-> | [(d & q & ->) | [(m & ->) | (d & ->)]]])];
    reflexivity.
Qed.

Lemma poll_output_no_submission w read (s : gmap string sval) :
  List.filter is_submission (check_task_status w read s).1.2 = [].
Proof.
  destruct (poll_cases w read s)
    as [-> | (_ & [-> | [(d & q & ->) | [(m & ->) | (d & ->)]]])];
    reflexivity.
Qed.

(** A run that passes the route and the configuration check is the
    title, the poll, and what follows the poll. *)
Lemma main_past_checks w i (s : gmap string sval) :
  health_query i <> Some "check" ->
  py_all (checked_values (load_config (environ i))) = true ->
  main w i s
  = let s1 := (check_task_status w (store_read i) s).1.1 in
    let out1 := (check_task_status w (store_read i) s).1.2 in
    let rest :=
      bind (in_session "task_id")
        (fun held =>
           bind (if held then ret true
                 else show_form (load_config (environ i)) i)
             (fun go_on =>
                if go_on then
                  match probe_clicked i with
                  | Some (ping, get) =>
                      let '(success, message) :=
                        test_queue_connection ping get in
                      if success then emit (UiSuccess message)
                      else emit (UiError message)
                  | None => ret tt
                  end
                else ret tt)) s1 in
    (rest.1.1, page_title :: (out1 ++ rest.1.2)%list, rest.2).
Proof.
  intros Hh Hc. unfold main.
  erewrite bind_pure;
    last (unfold init_routes; by rewrite bool_decide_eq_false_2).
  cbv beta iota. rewrite bind_emit, Hc. cbn [negb].
  pose proof (poll_result_returned w (store_read i) s) as Hr.
  destruct (check_task_status w (store_read i) s) as [[s1 out1] o] eqn:E.
  cbn [fst snd] in *. subst o.
  erewrite bind_returned; last exact E.
  cbv zeta.
  set (rest := bind (in_session "task_id") _ s1).
  by destruct rest as [[s2 out2] r].
Qed.

Lemma probe_step (i : run_input) (s : gmap string sval) :
  match probe_clicked i with
  | Some (ping, get) =>
      let '(success, message) := test_queue_connection ping get in
      if success then emit (UiSuccess message) else emit (UiError message)
  | None => ret tt
  end s
  = (s, probe_effects i, Returned tt).
Proof.
  unfold probe_effects.
  destruct (probe_clicked i) as [[ping get]|]; [|reflexivity].
  by destruct (test_queue_connection ping get) as [[] message].
Qed.

Lemma probe_effects_no_submission i :
  List.filter is_submission (probe_effects i) = [].
Proof.
  unfold probe_effects.
  destruct (probe_clicked i) as [[ping get]|]; [|reflexivity].
  by destruct (test_queue_connection ping get) as [[] message].
Qed.

Lemma in_session_run k (s : gmap string sval) :
  in_session k s = (s, [], Returned (bool_decide (is_Some (s !! k)))).
Proof. reflexivity. Qed.

(** X16.  While a handle is still held after the poll of a run, the run
    shows no form and enqueues nothing, whatever the operator's form input
    would be: its page is the title, what the poll rendered, and the probe
    result if the probe button was clicked; its session state is the one
    the poll left. *)
Theorem job_in_flight_hides_form w i (s : gmap string sval) id :
  health_query i <> Some "check" ->
  py_all (checked_values (load_config (environ i))) = true ->
  (check_task_status w (store_read i) s).1.1 !! "task_id" = Some id ->
  main w i s
  = ((check_task_status w (store_read i) s).1.1,
     page_title
       :: ((check_task_status w (store_read i) s).1.2 ++ probe_effects i)%list,
     Returned tt)
  /\ List.filter is_submission (main w i s).1.2 = [].
Proof.
  intros Hh Hc Hheld.
  assert (main w i s
          = ((check_task_status w (store_read i) s).1.1,
             page_title
               :: ((check_task_status w (store_read i) s).1.2
                   ++ probe_effects i)%list,
             Returned tt)) as Hmain.
  { rewrite (main_past_checks w i s Hh Hc). cbv zeta.
    erewrite bind_pure; last apply in_session_run.
    rewrite bool_decide_eq_true_2 by (rewrite Hheld; eauto).
    erewrite bind_pure; last reflexivity.
    cbv beta iota. by rewrite probe_step. }
  split; [exact Hmain|].
  rewrite Hmain. cbn [fst snd List.filter is_submission page_title].
  by rewrite List.filter_app, poll_output_no_submission,
    probe_effects_no_submission.
Qed.

Lemma job_in_flight_hides_form_witness :
  let i := mkRun env_complete None (found (in_progress_snapshot 5 10))
             (Some scenario_form) (fun _ => Returned "task-2")
             (Some (Returned tt, Returned (PStr "pong"))) in
  main progress_in_range i (session_holding "t1")
  = ((check_task_status progress_in_range (store_read i)
        (session_holding "t1")).1.1,
     page_title
       :: ((check_task_status progress_in_range (store_read i)
              (session_holding "t1")).1.2 ++ probe_effects i)%list,
     Returned tt)
  /\ List.filter is_submission
       (main progress_in_range i (session_holding "t1")).1.2 = [].
Proof.
  intros i.
  apply (job_in_flight_hides_form progress_in_range i (session_holding "t1")
           (STaskId "t1")).
  - discriminate.
  - reflexivity.
  - vm_compute. reflexivity.
Defined.

Lemma show_form_run (i : run_input) (s : gmap string sval) :
  show_form (load_config (environ i)) i s
  = let '(s2, out, r) :=
      match form_submitted i with
      | None => ret true
      | Some f =>
          match build_job f with
          | inl msg => bind (emit (UiError msg)) (fun _ => ret false)
          | inr job =>
              bind (emit (Enqueue job))
                (fun _ =>
                   match process_files_task i job with
                   | Returned id =>
                       bind (set_session "task_id" (STaskId id))
                         (fun _ => bind (emit Rerun) (fun _ => ret false))
                   | Raised e =>
                       bind (emit (UiError
                                     ("An error occurred: " ++ exn_str e)))
                         (fun _ => ret false)
                   end)
          end
      end s in
    (s2, UiForm (form_default i) :: out, r).
Proof. reflexivity. Qed.

(** A run with no handle in the session, past the two checks: the poll
    does nothing, and the form is shown. *)
Lemma main_idle w i (s s2 : gmap string sval) out r :
  health_query i <> Some "check" ->
  py_all (checked_values (load_config (environ i))) = true ->
  s !! "task_id" = None ->
  bind (show_form (load_config (environ i)) i)
    (fun go_on =>
       if go_on then
         match probe_clicked i with
         | Some (ping, get) =>
             let '(success, message) := test_queue_connection ping get in
             if success then emit (UiSuccess message)
             else emit (UiError message)
         | None => ret tt
         end
       else ret tt) s
  = (s2, out, r) ->
  main w i s = (s2, page_title :: out, r).
Proof.
  intros Hh Hc Hidle Hrest. rewrite (main_past_checks w i s Hh Hc).
  rewrite (check_task_status_idle w _ s Hidle). cbv zeta. cbn [fst snd app].
  erewrite bind_pure; last apply in_session_run.
  rewrite bool_decide_eq_false_2 by (rewrite Hidle; by intros [? ?]).
  cbv iota. by rewrite Hrest.
Qed.

(** X17.  A valid form submitted while no handle is held, and accepted
    by the queue, enqueues exactly the job the builder made, stores the
    task id the queue returned as the session's handle, and ends the run
    with a rerun: nothing else is rendered, not even the probe result when
    the probe button was clicked too. *)
Theorem accepted_submission_stores_handle w i (s : gmap string sval)
  f job id :
  health_query i <> Some "check" ->
  py_all (checked_values (load_config (environ i))) = true ->
  s !! "task_id" = None ->
  form_submitted i = Some f ->
  build_job f = inr job ->
  process_files_task i job = Returned id ->
  main w i s
  = (<["task_id" := STaskId id]> s,
     [page_title; UiForm (form_default i); Enqueue job; Rerun],
     Returned tt).
Proof.
  intros Hh Hc Hidle Hf Hj Hq.
  apply (main_idle w i s _ _ _ Hh Hc Hidle).
  unfold bind at 1. rewrite show_form_run, Hf, Hj.
  rewrite bind_emit. rewrite Hq.
  cbv [bind set_session emit ret app fst snd]. reflexivity.
Qed.

Lemma accepted_submission_stores_handle_witness :
  main progress_in_range (form_run scenario_form (Returned "task-1")) ∅
  = (<["task_id" := STaskId "task-1"]> ∅,
     [page_title; UiForm (form_default (form_run scenario_form (Returned "task-1")));
      Enqueue scenario_job; Rerun],
     Returned tt).
Proof.
  apply (accepted_submission_stores_handle progress_in_range
           (form_run scenario_form (Returned "task-1")) ∅ scenario_form
           scenario_job "task-1");
    try reflexivity.
  discriminate.
Defined.

(** X18.  A submitted form that the builder refuses is answered with the
    builder's message and nothing more: no job is enqueued, no handle is
    stored, the session state is untouched and the run ends there. *)
Theorem refused_form_enqueues_nothing w i (s : gmap string sval) f msg :
  health_query i <> Some "check" ->
  py_all (checked_values (load_config (environ i))) = true ->
  s !! "task_id" = None ->
  form_submitted i = Some f ->
  build_job f = inl msg ->
  main w i s
  = (s, [page_title; UiForm (form_default i); UiError msg], Returned tt).
Proof.
  intros Hh Hc Hidle Hf Hj.
  apply (main_idle w i s _ _ _ Hh Hc Hidle).
  unfold bind at 1. rewrite show_form_run, Hf, Hj.
  cbv [bind emit ret app fst snd]. reflexivity.
Qed.

Lemma refused_form_enqueues_nothing_witness :
  main progress_in_range (form_run form_no_kinds (Returned "task-1")) ∅
  = (∅,
     [page_title;
      UiForm (form_default (form_run form_no_kinds (Returned "task-1")));
      UiError msg_required_fields],
     Returned tt).
Proof.
  apply (refused_form_enqueues_nothing progress_in_range
           (form_run form_no_kinds (Returned "task-1")) ∅ form_no_kinds
           msg_required_fields);
    try reflexivity.
  discriminate.
Defined.

(** X19.  When the queue refuses a valid job (enqueuing raises), the run
    renders 'An error occurred' with the text of the exception and stores
    no handle: the session state is as before, the exception does not
    escape, and no rerun is asked for. *)
Theorem refused_enqueue_leaves_no_handle w i (s : gmap string sval)
  f job e :
  health_query i <> Some "check" ->
  py_all (checked_values (load_config (environ i))) = true ->
  s !! "task_id" = None ->
  form_submitted i = Some f ->
  build_job f = inr job ->
  process_files_task i job = Raised e ->
  main w i s
  = (s,
     [page_title; UiForm (form_default i); Enqueue job;
      UiError ("An error occurred: " ++ exn_str e)],
     Returned tt).
Proof.
  intros Hh Hc Hidle Hf Hj Hq.
  apply (main_idle w i s _ _ _ Hh Hc Hidle).
  unfold bind at 1. rewrite show_form_run, Hf, Hj.
  rewrite bind_emit. rewrite Hq.
  cbv [bind set_session emit ret app fst snd]. reflexivity.
Qed.

Lemma refused_enqueue_leaves_no_handle_witness :
  main progress_in_range
    (form_run scenario_form (Raised (PyException "Connection refused"))) ∅
  = (∅,
     [page_title;
      UiForm (form_default
                (form_run scenario_form
                   (Raised (PyException "Connection refused"))));
      Enqueue scenario_job;
      UiError ("An error occurred: "
               ++ exn_str (PyException "Connection refused"))],
     Returned tt).
Proof.
  apply (refused_enqueue_leaves_no_handle progress_in_range
           (form_run scenario_form (Raised (PyException "Connection refused")))
           ∅ scenario_form scenario_job (PyException "Connection refused"));
    try reflexivity.
  discriminate.
Defined.

Lemma add_default_lookup_ne k v (s : gmap string sval) j :
  k <> j -> add_default k v s !! j = s !! j.
Proof.
  intros Hne. unfold add_default. destruct (s !! k); [done|].
  by rewrite lookup_insert_ne.
Qed.

Lemma init_session_state_run (s : gmap string sval) :
  init_session_state s
  = (add_default "processed_files" (SFiles [])
       (add_default "processing_complete" (SBool false) s),
     [], Returned tt).
Proof. reflexivity. Qed.

Lemma init_session_state_task_id (s : gmap string sval) :
  (init_session_state s).1.1 !! "task_id" = s !! "task_id".
Proof.
  rewrite init_session_state_run. cbn [fst].
  by rewrite !add_default_lookup_ne.
Qed.

Lemma auto_refresh_run (s : gmap string sval) :
  auto_refresh s
  = (s,
     if bool_decide (is_Some (s !! "task_id")) then [AutoRefresh 10000]
     else [],
     Returned tt).
Proof.
  unfold auto_refresh. erewrite bind_pure; last apply in_session_run.
  by destruct (bool_decide (is_Some (s !! "task_id"))).
Qed.

Lemma main_health_route w i (s : gmap string sval) :
  health_query i = Some "check" ->
  main w i s = (s, [UiWrite health_check], Returned tt).
Proof.
  intros Hh. unfold main.
  erewrite bind_returned;
    last (unfold init_routes; rewrite bool_decide_eq_true_2 by exact Hh;
          reflexivity).
  reflexivity.
Qed.

(** X20.  With the query parameter health set to 'check', [main] writes
    'OK' and stops: no title, no configuration check, no poll, and [main]
    itself leaves the session state as it found it, even when required
    variables are missing or a handle is held.  Over the whole run the
    session state changes only by the initial entries set before [main],
    the handle is kept as it was, and besides the page configuration and
    'OK' the only call is the auto-refresh registration, made exactly when
    a handle is held at the start. *)
Theorem health_route_stops_the_run w i (s : gmap string sval) :
  health_query i = Some "check" ->
  main w i s = (s, [UiWrite health_check], Returned tt)
  /\ run_script w i s
     = ((init_session_state s).1.1,
        SetPageConfig
          :: ((if bool_decide (is_Some (s !! "task_id"))
               then [AutoRefresh 10000] else [])
              ++ [UiWrite health_check])%list,
        Returned tt)
  /\ (run_script w i s).1.1 !! "task_id" = s !! "task_id".
Proof.
  intros Hh.
  assert (run_script w i s
          = ((init_session_state s).1.1,
             SetPageConfig
               :: ((if bool_decide (is_Some (s !! "task_id"))
                    then [AutoRefresh 10000] else [])
                   ++ [UiWrite health_check])%list,
             Returned tt)) as Hrun.
  { unfold run_script. rewrite bind_emit.
    erewrite bind_pure; last apply init_session_state_run.
    rewrite init_session_state_run. cbn [fst].
    set (s0 := add_default "processed_files" (SFiles [])
                 (add_default "processing_complete" (SBool false) s)).
    assert (s0 !! "task_id" = s !! "task_id") as Hs0
        by (subst s0; by rewrite !add_default_lookup_ne).
    cbv beta. erewrite bind_returned; last apply auto_refresh_run.
    rewrite (main_health_route w i s0 Hh), Hs0. reflexivity. }
  split; [by apply main_health_route|]. split; [exact Hrun|].
  rewrite Hrun. cbn [fst]. apply init_session_state_task_id.
Qed.

Lemma health_route_stops_the_run_witness :
  let i := mkRun ∅ (Some "check") (found complete_snapshot)
             (Some scenario_form) (fun _ => Returned "task-1") None in
  main progress_in_range i (session_holding "t1")
  = (session_holding "t1", [UiWrite health_check], Returned tt)
  /\ run_script progress_in_range i (session_holding "t1")
     = ((init_session_state (session_holding "t1")).1.1,
        SetPageConfig
          :: ((if bool_decide (is_Some (session_holding "t1" !! "task_id"))
               then [AutoRefresh 10000] else [])
              ++ [UiWrite health_check])%list,
        Returned tt)
  /\ (run_script progress_in_range i (session_holding "t1")).1.1 !! "task_id"
     = session_holding "t1" !! "task_id".
Proof.
  intros i.
  apply (health_route_stops_the_run progress_in_range i
           (session_holding "t1")).
  reflexivity.
Defined.

Lemma show_form_renders_form {B} (i : run_input) (k : bool -> script B)
  (s : gmap string sval) :
  In (UiForm (form_default i))
    (bind (show_form (load_config (environ i)) i) k s).1.2.
Proof.
  unfold bind. rewrite show_form_run.
  match goal with
  | |- context [match form_submitted i with _ => _ end s] =>
      destruct (match form_submitted i with
                | None => ret true
                | Some f => _
                end s) as [[s2 out] [a|e]]
  end.
  - destruct (k a s2) as [[s3 out3] r]. cbn. by left.
  - cbn. by left.
Qed.

(** X21.  Whenever no handle is held once the poll of a run is done, be
    it that none was held before or that this very poll disposed it after
    a terminal snapshot or an error, the same run shows the submission
    form. *)
Theorem form_shown_when_no_handle_after_poll w i (s : gmap string sval) :
  health_query i <> Some "check" ->
  py_all (checked_values (load_config (environ i))) = true ->
  (check_task_status w (store_read i) s).1.1 !! "task_id" = None ->
  In (UiForm (form_default i)) (main w i s).1.2.
Proof.
  intros Hh Hc Hgone.
  rewrite (main_past_checks w i s Hh Hc). cbv zeta. cbn [fst snd].
  erewrite bind_pure; last apply in_session_run.
  rewrite bool_decide_eq_false_2 by (rewrite Hgone; by intros [? ?]).
  cbv iota. right. apply in_or_app. right.
  apply show_form_renders_form.
Qed.

Lemma form_shown_when_no_handle_after_poll_witness :
  In (UiForm (form_default (poll_run (found failed_snapshot))))
    (main progress_in_range (poll_run (found failed_snapshot))
       (session_holding "t1")).1.2.
Proof.
  apply (form_shown_when_no_handle_after_poll progress_in_range
           (poll_run (found failed_snapshot)) (session_holding "t1")).
  - discriminate.
  - reflexivity.
  - vm_compute. reflexivity.
Defined.

Lemma add_default_lookup_self k v (s : gmap string sval) :
  is_Some (add_default k v s !! k).
Proof.
  unfold add_default. destruct (s !! k) eqn:E; [by rewrite E|].
  rewrite lookup_insert_eq. eauto.
Qed.

(** X22.  The initialisation at the start of every run renders nothing
    and never overwrites a session entry: every entry present before,
    the task handle included, keeps its value across a rerun; afterwards
    both initial entries exist, and running the initialisation again
    changes nothing. *)
Theorem init_keeps_session_entries (s : gmap string sval) :
  let s' := (init_session_state s).1.1 in
  (forall k v, s !! k = Some v -> s' !! k = Some v)
  /\ is_Some (s' !! "processing_complete")
  /\ is_Some (s' !! "processed_files")
  /\ init_session_state s = (s', [], Returned tt)
  /\ init_session_state s' = (s', [], Returned tt).
Proof.
  intros s'. subst s'.
  assert (init_session_state s
          = (add_default "processed_files" (SFiles [])
               (add_default "processing_complete" (SBool false) s),
             [], Returned tt)) as Hrun by reflexivity.
  rewrite Hrun. cbn [fst snd].
  pose proof (add_default_lookup_self "processing_complete" (SBool false) s)
    as [x Hx].
  pose proof (add_default_lookup_self "processed_files" (SFiles [])
                (add_default "processing_complete" (SBool false) s)) as Hy.
  split; [|split; [|split; [|split]]].
  - intros k v Hk. by do 2 apply add_default_lookup_present.
  - exists x. by apply add_default_lookup_present.
  - exact Hy.
  - reflexivity.
  - unfold init_session_state.
    erewrite bind_pure; last reflexivity.
    unfold init_session.
    rewrite (add_default_present "processing_complete")
      by (exists x; by apply add_default_lookup_present).
    by rewrite (add_default_present "processed_files") by exact Hy.
Qed.

Lemma poll_state_held w read (s : gmap string sval) id :
  s !! "task_id" = Some id ->
  (check_task_status w read s).1.1 = with_containers s
  \/ (check_task_status w read s).1.1 = delete "task_id" (with_containers s).
Proof.
  intros H. rewrite (check_task_status_held _ _ _ _ H).
  destruct read as [[d|]|e]; [| by left | by right].
  destruct (dict_truthy d); [|by left].
  destruct (guarded_render_cases w d (with_containers s) id
              (with_containers_lookup_present s _ _ H))
    as [-> | [[q ->] | [[m ->] | ->]]]; cbn [fst]; tauto.
Qed.

Lemma with_containers_has_placeholders (s : gmap string sval) :
  is_Some (with_containers s !! "progress_container")
  /\ is_Some (with_containers s !! "status_container")
  /\ is_Some (with_containers s !! "results_container").
Proof.
  unfold with_containers.
  pose proof (add_default_lookup_self "progress_container" SContainer s)
    as [x Hx].
  pose proof (add_default_lookup_self "status_container" SContainer
                (add_default "progress_container" SContainer s)) as [y Hy].
  repeat split.
  - exists x. by do 2 apply add_default_lookup_present.
  - exists y. by apply add_default_lookup_present.
  - apply add_default_lookup_self.
Qed.

(** X23.  After any poll made while a handle is held, the three
    placeholders (progress, status, results) exist in the session state,
    whatever the store answered and whether or not the handle survived;
    placeholders that existed already are kept, not replaced. *)
Theorem poll_ensures_placeholders w read (s : gmap string sval) id :
  s !! "task_id" = Some id ->
  let s' := (check_task_status w read s).1.1 in
  is_Some (s' !! "progress_container")
  /\ is_Some (s' !! "status_container")
  /\ is_Some (s' !! "results_container")
  /\ (forall k v, k <> "task_id" -> s !! k = Some v -> s' !! k = Some v).
Proof.
  intros H s'. subst s'.
  destruct (with_containers_has_placeholders s) as (H1 & H2 & H3).
  destruct (poll_state_held w read s id H) as [-> | ->].
  - repeat split; try assumption.
    intros k v _. apply with_containers_lookup_present.
  - rewrite !lookup_delete_ne by done. repeat split; try assumption.
    intros k v Hk Hv. rewrite lookup_delete_ne by done.
    by apply with_containers_lookup_present.
Qed.

Lemma poll_ensures_placeholders_witness :
  let s' := (check_task_status progress_in_range
               (Raised (PyException "Connection refused"))
               (session_holding "t1")).1.1 in
  is_Some (s' !! "progress_container")
  /\ is_Some (s' !! "status_container")
  /\ is_Some (s' !! "results_container")
  /\ (forall k v, k <> "task_id" -> session_holding "t1" !! k = Some v ->
      s' !! k = Some v).
Proof.
  apply (poll_ensures_placeholders progress_in_range
           (Raised (PyException "Connection refused")) (session_holding "t1")
           (STaskId "t1")).
  reflexivity.
Defined.

(** ** Configuration check: what it covers and what it leaves optional *)

Lemma form_default_unset (i : run_input) :
  opt_truthy (get_env_variable (environ i) "DEFAULT_S3_BUCKET") = false ->
  form_default i = EmptyString.
Proof.
  unfold form_default, py_or, opt_truthy.
  destruct (get_env_variable (environ i) "DEFAULT_S3_BUCKET") as [b|];
    [|reflexivity].
  by intros ->.
Qed.

(** C4, as the program has it.  The values checked at start are those
    of the five variables of [required_keys]; the queue backend and the
    result store are both reached through REDIS_URL.  When one of them is
    not set or is empty, the run shows the title and the configuration
    error and stops there: no poll, no form, no job is enqueued and the
    session state is untouched.  The default bucket is not among the
    values checked.  Whenever the five are set, whatever the environment
    says about the default bucket, the check passes and the run proceeds:
    it polls; it shows the form when no handle is left after the poll; and
    a valid form accepted by the queue is enqueued and its handle stored.
    With the default bucket unset or empty the form just proposes an empty
    destination.  Removing or setting the default bucket never changes the
    outcome of the check. *)
Theorem startup_check_covers_required_keys w i (s : gmap string sval) :
  health_query i <> Some "check" ->
  ((exists k, In k required_keys
              /\ opt_truthy (get_env_variable (environ i) k) = false) ->
   main w i s = (s, [page_title; UiError msg_missing_env], Returned tt))
  /\ ((forall k, In k required_keys ->
                 opt_truthy (get_env_variable (environ i) k) = true) ->
      py_all (checked_values (load_config (environ i))) = true
      /\ (exists rest,
            (main w i s).1.2
            = page_title
                :: ((check_task_status w (store_read i) s).1.2 ++ rest)%list)
      /\ ((check_task_status w (store_read i) s).1.1 !! "task_id" = None ->
          In (UiForm (form_default i)) (main w i s).1.2)
      /\ (forall f job id,
            s !! "task_id" = None ->
            form_submitted i = Some f ->
            build_job f = inr job ->
            process_files_task i job = Returned id ->
            main w i s
            = (<["task_id" := STaskId id]> s,
               [page_title; UiForm (form_default i); Enqueue job; Rerun],
               Returned tt))
      /\ (opt_truthy (get_env_variable (environ i) "DEFAULT_S3_BUCKET") = false ->
          form_default i = EmptyString))
  /\ (forall env : gmap string string,
        py_all (checked_values (load_config (delete "DEFAULT_S3_BUCKET" env)))
        = py_all (checked_values (load_config env))
        /\ forall b,
            py_all (checked_values
                      (load_config (<["DEFAULT_S3_BUCKET" := b]> env)))
            = py_all (checked_values (load_config env))).
Proof.
  intros Hh. split; [|split].
  - intros (k & Hk & Hmiss). apply main_config_error; [exact Hh|].
    destruct (py_all (checked_values (load_config (environ i)))) eqn:E;
      [|reflexivity].
    pose proof (proj1 (env_check_iff (environ i)) E k Hk). congruence.
  - intros Hall.
    assert (py_all (checked_values (load_config (environ i))) = true) as Hc
        by (by apply env_check_iff).
    split; [exact Hc|]. split; [|split; [|split]].
    + rewrite (main_past_checks w i s Hh Hc). cbv zeta. cbn [fst snd].
      eexists. reflexivity.
    + intros Hgone.
      rewrite (main_past_checks w i s Hh Hc). cbv zeta. cbn [fst snd].
      erewrite bind_pure; last apply in_session_run.
      rewrite bool_decide_eq_false_2 by (rewrite Hgone; by intros [? ?]).
      cbv iota. right. apply in_or_app. right.
      apply show_form_renders_form.
    + intros f job id Hidle Hf Hj Hq.
      apply (main_idle w i s _ _ _ Hh Hc Hidle).
      unfold bind at 1. rewrite show_form_run, Hf, Hj.
      rewrite bind_emit. rewrite Hq.
      cbv [bind set_session emit ret app fst snd]. reflexivity.
    + apply form_default_unset.
  - intros env. split; [|intros b];
      unfold checked_values, load_config, get_env_variable; cbn.
    + by rewrite !lookup_delete_ne.
    + by rewrite !lookup_insert_ne.
Qed.

Lemma startup_check_covers_required_keys_witness :
  main progress_in_range (submit_run env_without_redis) (session_holding "t1")
  = (session_holding "t1", [page_title; UiError msg_missing_env], Returned tt)
  /\ main progress_in_range (submit_run env_without_bucket) ∅
     = (<["task_id" := STaskId "task-1"]> ∅,
        [page_title; UiForm EmptyString; Enqueue scenario_job; Rerun],
        Returned tt).
Proof.
  split.
  - destruct (startup_check_covers_required_keys progress_in_range
                (submit_run env_without_redis) (session_holding "t1"))
      as [Hmissing _]; [discriminate|].
    apply Hmissing. exists "REDIS_URL". split; [simpl; tauto | reflexivity].
  - destruct (startup_check_covers_required_keys progress_in_range
                (submit_run env_without_bucket) ∅)
      as (_ & Hset & _); [discriminate|].
    destruct Hset as (_ & _ & _ & Hsubmit & Hdefault).
    { intros k Hk. simpl in Hk.
      destruct Hk as [<- | [<- | [<- | [<- | [<- | []]]]]]; reflexivity. }
    rewrite <- (Hdefault eq_refl).
    apply (Hsubmit scenario_form scenario_job "task-1"); reflexivity.
Defined.
